(** * Berlin travel map: the crime-table loader, the HTTP gateways and the
      session handlers of [streamlit_app.py], embedded in Rocq.

    The Python program is a Streamlit script.  Its deterministic parts are
    modelled as functions; the world it talks to (the file system behind
    [pd.read_excel], the HTTP services, the text-to-number converters of
    pandas and Python) enters as the variables of a section, so that every
    theorem holds whatever those answer.

    Not modelled: the memoization of [st.cache_data] (a decorated gateway
    is taken on a cold call), the widgets and the map drawn from the values
    computed here, and date cells of the sheet.  A number stands for its
    value, the integer and the float of one value being equal in Python;
    where the conversion of a column may round an integer beyond 2^53 to a
    float, the outcome is left to a variable. *)

From Stdlib Require Import ZArith NArith QArith Qabs List String Ascii Bool Lia.
From stdpp Require Import base option list gmap.

Local Open Scope N_scope.
Local Open Scope list_scope.

(** ** Python strings

    A Python [str] is a sequence of Unicode code points.  Literals are
    written as UTF-8 text and decoded by [py]. *)

Abbreviation str := (list N) (only parsing).

Definition continuation (b : N) : N := b mod 64.

Fixpoint utf8_decode (bs : list N) : list N :=
  match bs with
  | [] => []
  | b0 :: r0 =>
      if b0 <? 0x80 then b0 :: utf8_decode r0
      else match r0 with
      | [] => []
      | b1 :: r1 =>
          if b0 <? 0xE0 then
            ((b0 mod 32) * 64 + continuation b1) :: utf8_decode r1
          else match r1 with
          | [] => []
          | b2 :: r2 =>
              if b0 <? 0xF0 then
                ((b0 mod 16) * 4096 + continuation b1 * 64 + continuation b2)
                  :: utf8_decode r2
              else match r2 with
              | [] => []
              | b3 :: r3 =>
                  ((b0 mod 8) * 262144 + continuation b1 * 4096
                   + continuation b2 * 64 + continuation b3) :: utf8_decode r3
              end
          end
      end
  end.

Definition py (s : string) : str :=
  utf8_decode (map N_of_ascii (list_ascii_of_string s)).

(** [str.isspace] of one character: the code points CPython's
    [_PyUnicode_IsWhitespace] accepts. *)
Definition isspace (c : N) : bool :=
  ((0x09 <=? c) && (c <=? 0x0D)) || ((0x1C <=? c) && (c <=? 0x20))
  || (c =? 0x85) || (c =? 0xA0) || (c =? 0x1680)
  || ((0x2000 <=? c) && (c <=? 0x200A))
  || (c =? 0x2028) || (c =? 0x2029) || (c =? 0x202F) || (c =? 0x205F)
  || (c =? 0x3000).

Fixpoint lstrip (s : str) : str :=
  match s with
  | c :: s' => if isspace c then lstrip s' else s
  | [] => []
  end.

Definition rstrip (s : str) : str := rev (lstrip (rev s)).

(** [s.strip()] *)
Definition strip (s : str) : str := rstrip (lstrip s).

(** [s.replace(old, new)] for one-character [old] and [new]. *)
Definition replace_char (old new : N) (s : str) : str :=
  map (fun c => if c =? old then new else c) s.

Fixpoint startswith (prefix s : str) : bool :=
  match prefix, s with
  | [], _ => true
  | _ :: _, [] => false
  | a :: prefix', b :: s' => (a =? b) && startswith prefix' s'
  end.

(** [needle in hay] on strings: substring test. *)
Fixpoint contains (needle hay : str) : bool :=
  startswith needle hay
  || match hay with
     | [] => false
     | _ :: hay' => contains needle hay'
     end.

(** Truth value of a string: [not s] holds of the empty string only. *)
Definition str_truthy (s : str) : bool :=
  match s with [] => false | _ :: _ => true end.

Definition newline : N := 10.
Definition space : N := 32.

(** The double quote, and a text between double quotes. *)
Definition dquote : N := 34.
Definition quoted (s : str) : str := dquote :: s ++ [dquote].

(** ** Exceptions

    Every constructor stands for a class derived from Python's [Exception];
    [OtherError] covers the ones the program never names (I/O, HTTP and
    decoding errors of the libraries). *)

Inductive exn : Type :=
  | KeyError
  | TypeError
  | ValueError
  | IndexError
  | OtherError.

Inductive result (A : Type) : Type :=
  | Return (a : A)
  | Raise (e : exn).

Arguments Return {A} a.
Arguments Raise {A} e.

#[global] Instance result_ret : MRet result := fun A a => Return a.

#[global] Instance result_bind : MBind result := fun A B k m =>
  match m with
  | Return a => k a
  | Raise e => Raise e
  end.

(** [try: body  except ...: handler] *)
Definition try_except {A : Type} (body : result A) (handler : exn -> result A)
  : result A :=
  match body with
  | Return a => Return a
  | Raise e => handler e
  end.

(** ** Numbers

    Python compares [int], [float] and [bool] by value, so one type of
    numbers serves for all three: a finite value (every finite float is a
    rational), an infinity, or the float [nan]. *)

Inductive number : Type :=
  | Finite (q : Q)
  | Infinite (negative : bool)
  | NaN.

#[global] Instance Q_eq_dec : EqDecision Q.
Proof. solve_decision. Defined.

#[global] Instance number_eq_dec : EqDecision number.
Proof. solve_decision. Defined.

Definition zero : number := Finite 0.

Definition of_bool (b : bool) : number := Finite (if b then 1 else 0).

(** [bool(x)] of a number: only zero is false. *)
Definition number_truthy (x : number) : bool :=
  match x with
  | Finite q => negb (Qeq_bool q 0)
  | Infinite _ => true
  | NaN => true
  end.

Definition nonnegative (x : number) : Prop :=
  match x with
  | Finite q => (0 <= q)%Q
  | Infinite negative => negative = false
  | NaN => False
  end.

Definition is_digit (c : N) : bool := (48 <=? c) && (c <=? 57).

(** Value of a string of decimal digits, most significant first. *)
Definition decimal_value (s : str) : Z :=
  fold_left (fun acc c => (10 * acc + Z.of_N (c - 48))%Z) s 0%Z.

(** ** pandas: cells, series and frames

    A cell read from a sheet is a number (an empty cell is [nan]), a text or
    a boolean; date cells are not modelled.  A frame keeps its column labels,
    which may repeat, and its rows; a row shorter than the header reads as
    [nan] beyond its end. *)

Inductive cell : Type :=
  | Num (x : number)
  | Text (s : str)
  | Truth (b : bool).

#[global] Instance cell_eq_dec : EqDecision cell.
Proof. solve_decision. Defined.

Abbreviation Series := (list cell) (only parsing).

Record DataFrame : Type := { columns : list str; rows : list (list cell) }.

(** [pd.DataFrame()] *)
Definition empty_frame : DataFrame := {| columns := []; rows := [] |}.

Definition cell_at (j : nat) (row : list cell) : cell :=
  default (Num NaN) (row !! j).

Fixpoint set_cell (j : nat) (v : cell) (row : list cell) : list cell :=
  match j, row with
  | O, [] => [v]
  | O, _ :: row' => v :: row'
  | S j', [] => Num NaN :: set_cell j' v []
  | S j', c :: row' => c :: set_cell j' v row'
  end.

Fixpoint positions_from (i : nat) (label : str) (cols : list str) : list nat :=
  match cols with
  | [] => []
  | c :: cols' =>
      if decide (c = label) then i :: positions_from (S i) label cols'
      else positions_from (S i) label cols'
  end.

(** The places at which a label occurs among the column labels. *)
Definition positions (label : str) (cols : list str) : list nat :=
  positions_from 0 label cols.

Definition column (j : nat) (df : DataFrame) : Series :=
  map (cell_at j) (rows df).

Definition take_columns (js : list nat) (df : DataFrame) : DataFrame :=
  {| columns := map (fun j => default [] (columns df !! j)) js;
     rows := map (fun row => map (fun j => cell_at j row) js) (rows df) |}.

(** What [df[label]] is: a series when the label occurs once, a frame of all
    the columns that carry it when it occurs several times. *)
Inductive selection : Type :=
  | OneColumn (s : Series)
  | ManyColumns (d : DataFrame).

(** [df[label]] *)
Definition getitem (df : DataFrame) (label : str) : result selection :=
  match positions label (columns df) with
  | [] => Raise KeyError
  | [j] => Return (OneColumn (column j df))
  | js => Return (ManyColumns (take_columns js df))
  end.

Definition isin_cell (values : list str) (c : cell) : bool :=
  match c with
  | Text s => bool_decide (s ∈ values)
  | _ => false
  end.

Inductive mask : Type :=
  | SeriesMask (m : list bool)
  | FrameMask (m : DataFrame).

(** [x.isin(values)] for a list of strings. *)
Definition isin (values : list str) (x : selection) : mask :=
  match x with
  | OneColumn s => SeriesMask (map (isin_cell values) s)
  | ManyColumns d =>
      FrameMask {| columns := columns d;
                   rows := map (map (fun c => Truth (isin_cell values c))) (rows d) |}
  end.

Fixpoint keep {A : Type} (m : list bool) (l : list A) : list A :=
  match m, l with
  | b :: m', x :: l' => if b then x :: keep m' l' else keep m' l'
  | _, _ => []
  end.

(** [{a: x, b: y}] as the renaming dictionary: the later key wins. *)
Definition rename (mapper : gmap (list N) (list N)) (df : DataFrame) : DataFrame :=
  {| columns := map (fun c => default c (mapper !! c)) (columns df);
     rows := rows df |}.

(** [df[label] = s] for a series [s] on the frame's own index. *)
Definition setitem (df : DataFrame) (label : str) (s : Series) : DataFrame :=
  match positions label (columns df) with
  | [] =>
      {| columns := columns df ++ [label];
         rows := zip_with (fun row v => set_cell (length (columns df)) v row)
                   (rows df) s |}
  | js =>
      {| columns := columns df;
         rows := zip_with (fun row v => foldr (fun j r => set_cell j v r) row js)
                   (rows df) s |}
  end.

(** [df[[k1, k2, ...]]]: every column carrying one of the labels, key by key;
    [KeyError] when a label is absent. *)
Definition getitem_list (df : DataFrame) (keys : list str) : result DataFrame :=
  if forallb (fun k => bool_decide (positions k (columns df) ≠ [])) keys
  then Return (take_columns (concat (map (fun k => positions k (columns df)) keys)) df)
  else Raise KeyError.

Definition fill_cell (v : number) (c : cell) : cell :=
  match c with
  | Num NaN => Num v
  | _ => c
  end.

(** [s.fillna(v)] *)
Definition fillna (v : number) (s : Series) : Series := map (fill_cell v) s.

Definition is_truth (c : cell) : bool :=
  match c with
  | Truth _ => true
  | _ => false
  end.

(** The numbers an integer column and a float column hold alike: those of
    magnitude at most 2^53. *)
Definition within_float (q : Q) : bool :=
  Qle_bool (Qabs q) (inject_Z (2 ^ 53)%Z).

(** A magnitude with its sign. *)
Definition signed (negative : bool) (x : number) : number :=
  match x with
  | Finite q => Finite (if negative then Qopp (Qabs q) else Qabs q)
  | Infinite _ => Infinite negative
  | NaN => NaN
  end.

(** What pandas answers to [df.where(m)] when the labels of the mask
    repeat beside further columns: the mask cannot be aligned and the call
    fails.  (When the repeated label is the only label of the frame the
    selection goes through, and [pd.to_numeric] then refuses the frame of
    line 86: the loader returns the same.) *)
Definition where_refused : DataFrame -> DataFrame -> result DataFrame :=
  fun _ _ => Raise ValueError.

Section Pandas.

(** What pandas makes of a text that is not a short string of digits
    (signs, decimal points, exponents, blanks, [inf]): [None] when the
    text does not convert. *)
Variable parse_text : str -> option number.

(** [df[m]] for a frame [m] of booleans, that is [df.where(m)]; it is
    reached only when the district label is carried by several columns. *)
Variable frame_where : DataFrame -> DataFrame -> result DataFrame.

(** What the conversion of a column makes of a magnitude beyond 2^53 that
    stands in it: the magnitude itself where the column comes out as
    integers, the nearest float where it comes out as floats. *)
Variable wide_magnitude : Series -> Q -> number.

(** The number a text converts to.  One to fifteen decimal digits denote
    their value, exactly; any other text is left to [parse_text]. *)
Definition parse_number (s : str) : option number :=
  if forallb is_digit s && str_truthy s && (length s <=? 15)%nat
  then Some (Finite (inject_Z (decimal_value s)))
  else parse_text s.

(** A number as the converted column [s] holds it: unchanged up to 2^53,
    where integers and floats agree; beyond, its magnitude is left to
    [wide_magnitude] and its sign is kept. *)
Definition stored (s : Series) (x : number) : number :=
  match x with
  | Finite q =>
      if within_float q then x
      else signed (negb (Qle_bool 0 q)) (wide_magnitude s (Qabs q))
  | _ => x
  end.

(** One value of the column [s] under [pd.to_numeric(s, errors='coerce')],
    when the column does not consist of booleans only: a text that does
    not convert becomes [nan], a boolean 1 or 0. *)
Definition to_numeric_cell (s : Series) (c : cell) : cell :=
  match c with
  | Num x => Num (stored s x)
  | Truth b => Num (of_bool b)
  | Text t =>
      match parse_number t with
      | Some x => Num (stored s x)
      | None => Num NaN
      end
  end.

(** The conversion of a column, which is made as a whole: a column of
    booleans only is left as it is. *)
Definition to_numeric_series (s : Series) : Series :=
  if forallb is_truth s then s else map (to_numeric_cell s) s.

(** [pd.to_numeric(x, errors='coerce')]: a frame is refused. *)
Definition to_numeric (x : selection) : result Series :=
  match x with
  | OneColumn s => Return (to_numeric_series s)
  | ManyColumns _ => Raise TypeError
  end.

(** [df[m]] for a boolean mask. *)
Definition getitem_mask (df : DataFrame) (m : mask) : result DataFrame :=
  match m with
  | SeriesMask m => Return {| columns := columns df; rows := keep m (rows df) |}
  | FrameMask m => frame_where df m
  end.

End Pandas.

(** ** The crime-table loader *)

Definition CRIME_FILE_NAME : str := py "2023_berlin_crime.xlsx".

Definition berlin_districts : list str :=
  [ py "Mitte"; py "Friedrichshain-Kreuzberg"; py "Pankow";
    py "Charlottenburg-Wilmersdorf"; py "Spandau"; py "Steglitz-Zehlendorf";
    py "Tempelhof-Schöneberg"; py "Neukölln"; py "Treptow-Köpenick";
    py "Marzahn-Hellersdorf"; py "Lichtenberg"; py "Reinickendorf" ].

Definition District : str := py "District".
Definition Total_Crime : str := py "Total_Crime".

(** [str(c).replace('\n', ' ').strip()] on a header already turned into text. *)
Definition normalize_header (c : str) : str :=
  strip (replace_char newline space c).

(** The loop over the headers: the last header that matches wins. *)
Definition find_columns (cols : list str) : option (list N) * option (list N) :=
  fold_left
    (fun found c =>
       (if contains (py "Bezeichnung") c then Some c else fst found,
        if contains (py "Straftaten") c && contains (py "insgesamt") c
        then Some c else snd found))
    cols (None, None).

(** [not x] for [x] that is [None] or a string. *)
Definition py_not (x : option (list N)) : bool :=
  match x with
  | None => true
  | Some s => negb (str_truthy s)
  end.

Section Loader.

(** [pd.read_excel(file_name, skiprows=4, engine='openpyxl')], headers
    as their [str(c)]. *)
Variable read_excel : str -> result DataFrame.
Variable parse_text : str -> option number.
Variable frame_where : DataFrame -> DataFrame -> result DataFrame.
Variable wide_magnitude : Series -> Q -> number.

(** Lines 74 to 91: the run on the two columns found. *)
Definition normalize_table (df : DataFrame) (district_col total_col : str)
  : result DataFrame :=
  district ← getitem df district_col;
  df ← getitem_mask frame_where df (isin berlin_districts district);
  total ← getitem df total_col;
  total ← to_numeric parse_text wide_magnitude total;
  let df := setitem df total_col (fillna zero total) in
  let df := rename (<[total_col := Total_Crime]> (<[district_col := District]> ∅)) df in
  getitem_list df [District; Total_Crime].

(** The body of the [try] block, lines 57 to 91. *)
Definition load_body (file_name : str) : result DataFrame :=
  df ← read_excel file_name;
  let df := {| columns := map normalize_header (columns df); rows := rows df |} in
  let found := find_columns (columns df) in
  if py_not (fst found) || py_not (snd found) then Return empty_frame
  else
    match found with
    | (Some district_col, Some total_col) => normalize_table df district_col total_col
    | _ => Return empty_frame
    end.

Definition load_crime_data_for_map (file_name : str) : result DataFrame :=
  try_except (load_body file_name) (fun _ => Return empty_frame).

End Loader.

(** The sheet of the scenario: two columns, two rows of text. *)
Definition scenario_sheet : DataFrame :=
  {| columns := [py "Bezeichnung (Bezirk)"; py "Straftaten -insgesamt-"];
     rows := [ [Text (py "Mitte"); Text (py "12345")];
               [Text (py "Berlin total"); Text (py "99999")] ] |}.

(** The same sheet when reading it has already turned the totals into
    numbers. *)
Definition scenario_sheet_read_as_numbers : DataFrame :=
  {| columns := [py "Bezeichnung (Bezirk)"; py "Straftaten -insgesamt-"];
     rows := [ [Text (py "Mitte"); Num (Finite 12345)];
               [Text (py "Berlin total"); Num (Finite 99999)] ] |}.

(** ** Python values

    The values a decoded JSON document is made of; they also serve for what
    the gateways return.  A dictionary keeps its keys in insertion order. *)

#[warnings="-register-all"] Inductive value : Type :=
  | VNone
  | VBool (b : bool)
  | VNum (x : number)
  | VStr (s : str)
  | VList (l : list value)
  | VDict (d : list (list N * value)).

(** [bool(v)] *)
Definition truthy (v : value) : bool :=
  match v with
  | VNone => false
  | VBool b => b
  | VNum x => number_truthy x
  | VStr s => str_truthy s
  | VList l => match l with [] => false | _ :: _ => true end
  | VDict d => match d with [] => false | _ :: _ => true end
  end.

Inductive key : Type :=
  | Index (i : nat)
  | Key (s : str).

Fixpoint assoc (s : str) (d : list (list N * value)) : option value :=
  match d with
  | [] => None
  | (k, v) :: d' => if decide (k = s) then Some v else assoc s d'
  end.

(** [v[k]] *)
Definition subscript (v : value) (k : key) : result value :=
  match v, k with
  | VDict d, Key s =>
      match assoc s d with Some x => Return x | None => Raise KeyError end
  | VDict _, Index _ => Raise KeyError
  | VList l, Index i =>
      match l !! i with Some x => Return x | None => Raise IndexError end
  | VStr s, Index i =>
      match s !! i with Some c => Return (VStr [c]) | None => Raise IndexError end
  | _, _ => Raise TypeError
  end.

Definition is_str (s : str) (v : value) : bool :=
  match v with
  | VStr s' => bool_decide (s' = s)
  | _ => false
  end.

(** [s in v] for a string [s]. *)
Definition py_in (s : str) (v : value) : result bool :=
  match v with
  | VDict d => Return (bool_decide (is_Some (assoc s d)))
  | VList l => Return (existsb (is_str s) l)
  | VStr hay => Return (contains s hay)
  | _ => Raise TypeError
  end.

(** What [for x in v] runs through. *)
Definition iterate (v : value) : result (list value) :=
  match v with
  | VList l => Return l
  | VDict d => Return (map (fun kv => VStr (fst kv)) d)
  | VStr s => Return (map (fun c => VStr [c]) s)
  | _ => Raise TypeError
  end.

(** [l.insert(i, x)] *)
Definition py_insert {A : Type} (i : nat) (x : A) (l : list A) : list A :=
  take i l ++ x :: drop i l.

(** ** Programs that talk to the network

    A program threads the list of the requests issued so far. *)

Inductive request : Type :=
  | HttpGet (url : str) (params : list (list N * value)) (headers : list (list N * list N))
  | GenerateContent (model prompt : str).

Definition IO (A : Type) : Type := list request -> result A * list request.

#[global] Instance IO_ret : MRet IO := fun A a log => (Return a, log).

#[global] Instance IO_bind : MBind IO := fun A B k m log =>
  match m log with
  | (Return a, log') => k a log'
  | (Raise e, log') => (Raise e, log')
  end.

Definition lift {A : Type} (r : result A) : IO A := fun log => (r, log).

(** [try: body  except: handler], a bare [except] included. *)
Definition try_except_io {A : Type} (body : IO A) (handler : exn -> IO A) : IO A :=
  fun log =>
    match body log with
    | (Return a, log') => (Return a, log')
    | (Raise e, log') => handler e log'
    end.

(** A program that ends without an exception, whatever was requested
    before. *)
Definition never_raises {A : Type} (m : IO A) : Prop :=
  forall log, exists v log', m log = (Return v, log').

(** Whenever the protected block [body] raises, the gateway [m] returns
    [fallback]. *)
Definition falls_back_to {A B : Type} (fallback : A) (body : IO B) (m : IO A) : Prop :=
  forall log e log', body log = (Raise e, log') -> m log = (Return fallback, log').

(** The tag of an Overpass query, [None] for an unknown category. *)
Definition osm_tag (category : str) : option (list N) :=
  if decide (category = py "restaurant")
  then Some (py "[" ++ quoted (py "amenity") ++ py "=" ++ quoted (py "restaurant") ++ py "]")
  else if decide (category = py "hotel")
  then Some (py "[" ++ quoted (py "tourism") ++ py "=" ++ quoted (py "hotel") ++ py "]")
  else if decide (category = py "tourism")
  then Some (py "[" ++ quoted (py "tourism") ++ py "~"
             ++ quoted (py "attraction|museum|artwork|viewpoint") ++ py "]")
  else None.

Definition none_triple : value * value * value := (VNone, VNone, VNone).

(** When the service fails on [req], the gateway [m] returns [fallback],
    having issued that one request. *)
Definition survives_failure {A : Type} (respond : request -> result value)
  (req : request) (fallback : A) (m : IO A) : Prop :=
  forall e log, respond req = Raise e -> m log = (Return fallback, log ++ [req]).

Section Gateways.

(** The answer of the service to a request, decoded: what
    [requests.get(...).json()] and [generate_content(...).text] give, or
    the exception they raise. *)
Variable respond : request -> result value.

(** [str(v)], as an f-string interpolates a value that is not a string. *)
Variable format_other : value -> str.

(** [float(s)] on a string: [None] when Python raises [ValueError]. *)
Variable parse_float : str -> option number.

Variable GEMINI_API_KEY : str.

Definition call (req : request) : IO value :=
  fun log => (respond req, log ++ [req]).

Definition format_value (v : value) : str :=
  match v with
  | VStr s => s
  | _ => format_other v
  end.

(** [float(v)].  A number is returned as it is: so does Python up to 2^53
    in magnitude; beyond, it rounds an integer to the nearest float or
    refuses it, which the statements about a hit keep out by [float_of]. *)
Definition py_float (v : value) : result number :=
  match v with
  | VNum x => Return x
  | VBool b => Return (of_bool b)
  | VStr s =>
      match parse_float s with Some x => Return x | None => Raise ValueError end
  | _ => Raise TypeError
  end.

Definition exchange_rate_request : request :=
  HttpGet (py "https://api.exchangerate-api.com/v4/latest/EUR") [] [].

(** The [try] block of [get_exchange_rate]. *)
Definition exchange_rate_body : IO value :=
  data ← call exchange_rate_request;
  rates ← lift (subscript data (Key (py "rates")));
  lift (subscript rates (Key (py "KRW"))).

Definition get_exchange_rate : IO value :=
  try_except_io exchange_rate_body (fun _ => mret (VNum (Finite 1450))).

Definition weather_fallback : value :=
  VDict [(py "temperature", VNum (Finite 15)); (py "weathercode", VNum (Finite 0))].

Definition weather_request : request :=
  HttpGet (py "https://api.open-meteo.com/v1/forecast?latitude=52.52&longitude=13.41&current_weather=true") [] [].

(** The [try] block of [get_weather]. *)
Definition weather_body : IO value :=
  data ← call weather_request;
  lift (subscript data (Key (py "current_weather"))).

Definition get_weather : IO value :=
  try_except_io weather_body (fun _ => mret weather_fallback).

(** The loop of lines 118 to 130 over the elements of the answer. *)
Fixpoint collect_places (elements results : list value) : result (list value) :=
  match elements with
  | [] => Return results
  | element :: elements' =>
      has_tags ← py_in (py "tags") element;
      named ← (if has_tags : bool
               then tags ← subscript element (Key (py "tags")); py_in (py "name") tags
               else Return false);
      if named : bool then
        tags ← subscript element (Key (py "tags"));
        name ← subscript tags (Key (py "name"));
        let search_query := replace_char space 43 (format_value name ++ py " Berlin") in
        let link := py "https://www.google.com/search?q=" ++ search_query in
        lat ← subscript element (Key (py "lat"));
        lon ← subscript element (Key (py "lon"));
        collect_places elements'
          (results ++ [VDict [(py "name", name); (py "lat", lat);
                              (py "lng", lon); (py "link", VStr link)]])
      else collect_places elements' results
  end.

Definition overpass_query (tag : str) (lat lng radius_m : value) : str :=
  [newline] ++ py "    [out:json];" ++ [newline] ++ py "    (" ++ [newline]
  ++ py "      node" ++ format_value (VStr tag) ++ py "(around:"
  ++ format_value radius_m ++ py "," ++ format_value lat ++ py ","
  ++ format_value lng ++ py ");" ++ [newline] ++ py "    );" ++ [newline]
  ++ py "    out body;" ++ [newline] ++ py "    ".

Definition overpass_request (tag : str) (lat lng radius_m : value) : request :=
  HttpGet (py "http://overpass-api.de/api/interpreter")
    [(py "data", VStr (overpass_query tag lat lng radius_m))] [].

(** The [try] block of [get_osm_places]. *)
Definition osm_places_body (tag : str) (lat lng radius_m : value) : IO (list value) :=
  data ← call (overpass_request tag lat lng radius_m);
  elements ← lift (subscript data (Key (py "elements")));
  elements ← lift (iterate elements);
  lift (collect_places elements []).

Definition get_osm_places (category : str) (lat lng radius_m : value)
  : IO (list value) :=
  match osm_tag category with
  | None => mret []
  | Some tag =>
      try_except_io (osm_places_body tag lat lng radius_m) (fun _ => mret [])
  end.

Definition nominatim_request (query : str) : request :=
  HttpGet (py "https://nominatim.openstreetmap.org/search")
    [(py "q", VStr query); (py "format", VStr (py "json")); (py "limit", VNum (Finite 1))]
    [(py "User-Agent", py "BerlinApp/1.0")].

(** The [try] block of [search_location]: [Some] triple when it returns,
    [None] when control falls through to the last line. *)
Definition search_location_body (query : str) : IO (option (value * value * value)) :=
  res ← call (nominatim_request query);
  if truthy res then
    first ← lift (subscript res (Index 0));
    lat ← lift (subscript first (Key (py "lat")));
    lat ← lift (py_float lat);
    first ← lift (subscript res (Index 0));
    lon ← lift (subscript first (Key (py "lon")));
    lon ← lift (py_float lon);
    first ← lift (subscript res (Index 0));
    name ← lift (subscript first (Key (py "display_name")));
    mret (Some (VNum lat, VNum lon, name))
  else mret None.

Definition search_location (query : str) : IO (value * value * value) :=
  returned ← try_except_io (search_location_body query) (fun _ => mret None);
  mret (default none_triple returned).

Definition missing_key_message : value := VStr (py "API 키가 필요합니다.").
Definition assistant_fallback : value := VStr (py "AI 오류").

Definition gemini_request (prompt : str) : request :=
  GenerateContent (py "gemini-pro") prompt.

Definition get_gemini_response (prompt : str) : IO value :=
  if negb (str_truthy GEMINI_API_KEY) then mret missing_key_message
  else try_except_io (call (gemini_request prompt))
         (fun _ => mret assistant_fallback).

End Gateways.

(** ** Session state and the handlers of one interaction

    [st.session_state] keeps Python objects across reruns of the script.
    A recommendation is a dictionary that is created once and then changed
    in place, so the state holds the objects by identity: [objects] maps an
    identity to the dictionary's current contents (its list of replies is
    owned by the dictionary and kept with it), and the list of
    recommendations is a list of identities. *)

Record Recommendation : Type :=
  { place : str; desc : str; replies : list (list N) }.

Record ChatMessage : Type := { role : str; content : value }.

Record session_state : Type :=
  { objects : gmap nat Recommendation;
    recommendations : list nat;
    messages : list ChatMessage;
    map_center : value;
    search_marker : value }.

(** Lines 160 to 164. *)
Definition initial_state : session_state :=
  {| objects := ∅;
     recommendations := [];
     messages := [];
     map_center := VList [VNum (Finite (5252 # 100)); VNum (Finite (13405 # 1000))];
     search_marker := VNone |}.

(** The recommendations as the page shows them, in order. *)
Definition shown (st : session_state) : list (option Recommendation) :=
  map (fun l => objects st !! l) (recommendations st).

(** Line 286: a new dictionary goes to the front of the list. *)
Definition submit_recommendation (name description : str) (st : session_state)
  : session_state :=
  let l := fresh (dom (objects st)) in
  {| objects := <[l := {| place := name; desc := description; replies := [] |}]> (objects st);
     recommendations := py_insert 0 l (recommendations st);
     messages := messages st;
     map_center := map_center st;
     search_marker := search_marker st |}.

(** [rec['replies'].append(r_text)] on the dictionary itself. *)
Definition append_reply (r_text : str) (r : Recommendation) : Recommendation :=
  {| place := place r; desc := desc r; replies := replies r ++ [r_text] |}.

(** Lines 302 to 303: the button of the [i]-th recommendation shown. *)
Definition reply_handler (i : nat) (r_text : str) (st : session_state)
  : session_state :=
  match recommendations st !! i with
  | None => st
  | Some l =>
      {| objects := alter (append_reply r_text) l (objects st);
         recommendations := recommendations st;
         messages := messages st;
         map_center := map_center st;
         search_marker := search_marker st |}
  end.

Section Handlers.

Variable respond : request -> result value.
Variable parse_float : str -> option number.
Variable GEMINI_API_KEY : str.

(** Lines 183 to 188: the search box of the sidebar. *)
Definition search_handler (search_query : str) (st : session_state)
  : IO session_state :=
  if str_truthy search_query then
    found ← search_location respond parse_float (search_query ++ py " Berlin");
    let '(lat, lng, name) := found in
    if truthy lat then
      mret {| objects := objects st;
              recommendations := recommendations st;
              messages := messages st;
              map_center := VList [lat; lng];
              search_marker :=
                VDict [(py "lat", lat); (py "lng", lng); (py "name", name)] |}
    else mret st
  else mret st.

(** Lines 317 to 323: one question to the assistant. *)
Definition chat_handler (prompt : str) (st : session_state) : IO session_state :=
  if str_truthy prompt then
    resp ← get_gemini_response respond GEMINI_API_KEY prompt;
    mret {| objects := objects st;
            recommendations := recommendations st;
            messages := messages st
              ++ [ {| role := py "user"; content := VStr prompt |};
                   {| role := py "assistant"; content := resp |} ];
            map_center := map_center st;
            search_marker := search_marker st |}
  else mret st.

End Handlers.

(** The states a session can be in: what the handlers make of the initial
    state. *)
Inductive reachable : session_state -> Prop :=
  | reachable_initial : reachable initial_state
  | reachable_submit name description st :
      reachable st -> reachable (submit_recommendation name description st)
  | reachable_reply i r_text st :
      reachable st -> reachable (reply_handler i r_text st)
  | reachable_search respond parse_float search_query st log :
      reachable st ->
      forall st' log',
        search_handler respond parse_float search_query st log = (Return st', log') ->
        reachable st'
  | reachable_chat respond key prompt st log :
      reachable st ->
      forall st' log',
        chat_handler respond key prompt st log = (Return st', log') ->
        reachable st'.

(** Every identity listed is that of a dictionary, and no dictionary is
    listed twice. *)
Definition well_formed (st : session_state) : Prop :=
  NoDup (recommendations st)
  /\ forall l, l ∈ recommendations st -> is_Some (objects st !! l).

(** ** Vocabulary of the statements about the loader *)

(** The two tests of the loop over the headers. *)
Definition is_district_header (c : list N) : bool := contains (py "Bezeichnung") c.

Definition is_total_header (c : list N) : bool :=
  contains (py "Straftaten") c && contains (py "insgesamt") c.

Definition last_match (P : list N -> bool) (cols : list (list N))
  (init : option (list N)) : option (list N) :=
  fold_left (fun found c => if P c then Some c else found) cols init.

(** The value of a row under a label (under the first column that carries
    it). *)
Definition field (cols : list (list N)) (label : list N) (row : list cell) : cell :=
  match positions label cols with
  | j :: _ => cell_at j row
  | [] => Num NaN
  end.

(** Headers, once cleaned, on which the loader meets no clash of labels: the
    two columns are found and differ, each of their labels is carried by one
    column only, and no label is already [District] or [Total_Crime]. *)
Definition standard_headers (cols : list (list N)) (district_col total_col : list N)
  : Prop :=
  find_columns cols = (Some district_col, Some total_col)
  /\ district_col ≠ total_col
  /\ length (positions district_col cols) = 1%nat
  /\ length (positions total_col cols) = 1%nat
  /\ (District ∉ cols)
  /\ (Total_Crime ∉ cols).

(** Every value under a [District] label is one of the twelve names. *)
Definition districts_listed (out : DataFrame) : Prop :=
  forall row j,
    row ∈ rows out -> columns out !! j = Some District ->
    exists s, cell_at j row = Text s /\ s ∈ berlin_districts.

(** The columns of the frame after line 89. *)
Definition renamed (cols : list (list N)) (district_col total_col : list N)
  : list (list N) :=
  map (fun c => default c ((<[total_col := Total_Crime]>
                  (<[district_col := District]> ∅) : gmap (list N) (list N)) !! c))
    cols.

(** The rows the filter of line 82 keeps. *)
Definition retained (cols : list (list N)) (district_col : list N)
  (sheet_rows : list (list cell)) : list (list cell) :=
  List.filter (fun row => isin_cell berlin_districts (field cols district_col row))
    sheet_rows.

(** The values line 86 stores in the total column, given the cells the
    column holds after the filter. *)
Definition converted_totals (parse_text : list N -> option number)
  (wide_magnitude : list cell -> Q -> number) (totals : list cell) : list cell :=
  fillna zero (to_numeric_series parse_text wide_magnitude totals).

(** The table the six steps of the loader describe: for each row kept, its
    district and its converted total. *)
Definition normalized_table (parse_text : list N -> option number)
  (wide_magnitude : list cell -> Q -> number)
  (cols : list (list N)) (district_col total_col : list N)
  (sheet_rows : list (list cell)) : DataFrame :=
  {| columns := [District; Total_Crime];
     rows := zip_with (fun row v => [field cols district_col row; v])
               (retained cols district_col sheet_rows)
               (converted_totals parse_text wide_magnitude
                  (map (field cols total_col) (retained cols district_col sheet_rows))) |}.

(** The frame after line 89, when one column carries each of the two labels
    found: the rows kept, their total cell converted, the labels renamed. *)
Definition cleaned (parse_text : list N -> option number)
  (wide_magnitude : list cell -> Q -> number)
  (cols : list (list N)) (district_col total_col : list N)
  (d t : nat) (sheet_rows : list (list cell)) : DataFrame :=
  {| columns := renamed cols district_col total_col;
     rows := zip_with (fun row v => set_cell t v row)
               (List.filter (fun row => isin_cell berlin_districts (cell_at d row))
                  sheet_rows)
               (converted_totals parse_text wide_magnitude
                  (map (cell_at t)
                     (List.filter (fun row => isin_cell berlin_districts (cell_at d row))
                        sheet_rows))) |}.

(** An output row that stems from a sheet row: a choice [js] of the cells
    of the sheet row, whose cell [t] has been replaced by a converted
    total. *)
Definition stems_from (js : list nat) (t : nat) (out_row row : list cell) : Prop :=
  exists v, out_row = map (fun j => cell_at j (set_cell t v row)) js.

(** The value of a cell as a number, a boolean counting as 1 or 0. *)
Definition numeric_value (c : cell) : option number :=
  match c with
  | Num x => Some x
  | Truth b => Some (of_bool b)
  | Text _ => None
  end.

(** Every value under a [Total_Crime] label is a number that is not
    negative. *)
Definition totals_nonnegative (out : DataFrame) : Prop :=
  forall row j,
    row ∈ rows out -> columns out !! j = Some Total_Crime ->
    exists x, numeric_value (cell_at j row) = Some x /\ nonnegative x.

(** No two rows of the table show the same value under a [District]
    label. *)
Definition one_row_per_district (out : DataFrame) : Prop :=
  forall i j r1 r2 p,
    rows out !! i = Some r1 -> rows out !! j = Some r2 ->
    columns out !! p = Some District ->
    cell_at p r1 = cell_at p r2 -> i = j.

(** The [k]-th row of the table exists and its value under [Total_Crime],
    which is there, is 0. *)
Definition total_is_zero (out : DataFrame) (k : nat) : Prop :=
  exists out_row,
    rows out !! k = Some out_row
    /\ (exists j, columns out !! j = Some Total_Crime)
    /\ forall j, columns out !! j = Some Total_Crime -> cell_at j out_row = Num zero.

(** The [k]-th row of the table exists and shows 0 under a label
    [Total_Crime]. *)
Definition shows_zero_total (out : DataFrame) (k : nat) : Prop :=
  exists out_row j,
    rows out !! k = Some out_row
    /\ columns out !! j = Some Total_Crime
    /\ cell_at j out_row = Num zero.

(** A total cell that holds no number: an empty cell, or a text that does
    not convert. *)
Definition unconverted (parse_text : list N -> option number) (c : cell) : Prop :=
  match c with
  | Num NaN => True
  | Text s => parse_number parse_text s = None
  | _ => False
  end.

(** A total cell that does not hold a negative number, be it given as a
    number or as a text. *)
Definition not_negative (parse_text : list N -> option number) (c : cell) : Prop :=
  match c with
  | Num NaN => True
  | Num x => nonnegative x
  | Truth _ => True
  | Text s =>
      match parse_number parse_text s with
      | Some NaN => True
      | Some x => nonnegative x
      | None => True
      end
  end.

(** The names of the allow-list that the district column of a sheet
    holds, row by row. *)
Definition listed_districts (cols : list (list N)) (district_col : list N)
  (sheet_rows : list (list cell)) : list cell :=
  List.filter (isin_cell berlin_districts) (map (field cols district_col) sheet_rows).

(** A query is blank when it is empty or made of whitespace only. *)
Definition blank (query : list N) : Prop := forallb isspace query = true.

(** ** Sample worlds, for the instances of the theorems *)

(** A converter that accepts no text but strings of digits. *)
Definition digits_only : list N -> option number := fun _ => None.

(** A conversion that keeps every magnitude beyond 2^53 as it is. *)
Definition keep_wide : list cell -> Q -> number := fun _ q => Finite q.

(** A sheet with a column already named [District], whose other column
    matches all three fragments. *)
Definition clash_sheet : DataFrame :=
  {| columns := [py "District"; py "Bezeichnung der Straftaten insgesamt"];
     rows := [ [Text (py "Nowhere"); Text (py "Mitte")] ] |}.

(** A sheet with a column named [District] next to the two German ones. *)
Definition extra_column_sheet : DataFrame :=
  {| columns := [py "Bezeichnung (Bezirk)"; py "Straftaten -insgesamt-"; py "District"];
     rows := [ [Text (py "Mitte"); Num (Finite 12345); Text (py "Zone A")] ] |}.

(** A sheet with a negative total and two rows for one district. *)
Definition negative_sheet : DataFrame :=
  {| columns := [py "Bezeichnung (Bezirk)"; py "Straftaten -insgesamt-"];
     rows := [ [Text (py "Mitte"); Num (Finite (-5))];
               [Text (py "Mitte"); Num (Finite 7)] ] |}.

(** A sheet whose total for Pankow is not a number. *)
Definition unknown_total_sheet : DataFrame :=
  {| columns := [py "Bezeichnung (Bezirk)"; py "Straftaten -insgesamt-"];
     rows := [ [Text (py "Mitte"); Text (py "12345")];
               [Text (py "Berlin total"); Text (py "99999")];
               [Text (py "Pankow"); Text (py "unknown")] ] |}.

(** A sheet with a column already named [Total_Crime], whose one row holds
    a text that is no number as its total. *)
Definition foreign_total_sheet : DataFrame :=
  {| columns := [py "Bezeichnung (Bezirk)"; py "Straftaten -insgesamt-";
                 py "Total_Crime"];
     rows := [ [Text (py "Mitte"); Text (py "unknown"); Text (py "abc")] ] |}.

(** A sheet with two columns whose headers clean to the same total label,
    whose one row holds a text that is no number as its totals. *)
Definition repeated_unknown_sheet : DataFrame :=
  {| columns := [py "Bezeichnung (Bezirk)"; py "Straftaten insgesamt";
                 py "Straftaten insgesamt "];
     rows := [ [Text (py "Mitte"); Text (py "unknown"); Text (py "unknown")] ] |}.

(** A sheet with a column already named [District], which holds one value
    for two districts. *)
Definition foreign_district_sheet : DataFrame :=
  {| columns := [py "Bezeichnung (Bezirk)"; py "Straftaten -insgesamt-";
                 py "District"];
     rows := [ [Text (py "Mitte"); Num (Finite 1); Text (py "Zone A")];
               [Text (py "Pankow"); Num (Finite 2); Text (py "Zone A")] ] |}.

(** A geocoder that knows Berlin: whatever is asked, it answers with one
    hit. *)
Definition berlin_geocoder : request -> result value :=
  fun _ =>
    Return (VList [VDict [(py "lat", VStr (py "52.5"));
                          (py "lon", VStr (py "13.4"));
                          (py "display_name", VStr (py "Berlin"))]]).

(** [float] on the two texts the sample geocoder sends. *)
Definition sample_float (s : list N) : option number :=
  if decide (s = py "52.5") then Some (Finite (525 # 10))
  else if decide (s = py "13.4") then Some (Finite (134 # 10))
  else None.

(** A service that is down. *)
Definition offline : request -> result value := fun _ => Raise OtherError.

(** [str] of a value, for the sample worlds: not used by the theorems. *)
Definition sample_format : value -> list N := fun _ => py "?".

(** A file system in which every name opens the same sheet. *)
Definition reads (sheet : DataFrame) : list N -> result DataFrame :=
  fun _ => Return sheet.

(** A sheet without the two columns. *)
Definition unrelated_sheet : DataFrame :=
  {| columns := [py "Name"; py "Count"];
     rows := [ [Text (py "Mitte"); Num (Finite 3)] ] |}.

(** The board after its first recommendation. *)
Definition first_recommendation : session_state :=
  submit_recommendation (py "Alexanderplatz") (py "Great views") initial_state.

(** ** Vocabulary and sample worlds of the further properties *)


(** A sheet with two columns whose headers clean to the same total label. *)
Definition repeated_total_sheet : DataFrame :=
  {| columns := [py "Bezeichnung (Bezirk)"; py "Straftaten insgesamt";
                 py "Straftaten insgesamt "];
     rows := [ [Text (py "Mitte"); Num (Finite 5); Num (Finite 6)] ] |}.

(** A sheet whose only column matches all three fragments. *)
Definition merged_column_sheet : DataFrame :=
  {| columns := [py "Bezeichnung der Straftaten insgesamt"];
     rows := [ [Text (py "Mitte")] ] |}.


(** The link of line 123 for a name. *)
Definition google_link (format_other : value -> list N) (name : value) : list N :=
  py "https://www.google.com/search?q="
  ++ replace_char space 43 (format_value format_other name ++ py " Berlin").

(** The record of lines 125 to 130. *)
Definition place_record (format_other : value -> list N) (name lat lon : value)
  : value :=
  VDict [(py "name", name); (py "lat", lat); (py "lng", lon);
         (py "link", VStr (google_link format_other name))].

(** An element as the Overpass service sends it: a dictionary whose tags, if
    any, are a dictionary, and which has coordinates when it has a name. *)
Definition osm_element (element : value) : bool :=
  match element with
  | VDict d =>
      match assoc (py "tags") d with
      | None => true
      | Some (VDict t) =>
          match assoc (py "name") t with
          | None => true
          | Some _ =>
              bool_decide (is_Some (assoc (py "lat") d))
              && bool_decide (is_Some (assoc (py "lon") d))
          end
      | Some _ => false
      end
  | _ => false
  end.

(** The records an element of that kind yields: one when it is named. *)
Definition expected_places (format_other : value -> list N) (element : value)
  : list value :=
  match element with
  | VDict d =>
      match assoc (py "tags") d with
      | Some (VDict t) =>
          match assoc (py "name") t, assoc (py "lat") d, assoc (py "lon") d with
          | Some name, Some lat, Some lon => [place_record format_other name lat lon]
          | _, _, _ => []
          end
      | _ => []
      end
  | _ => []
  end.

(** A named element without its latitude or its longitude. *)
Definition uncharted (element : value) : bool :=
  match element with
  | VDict d =>
      match assoc (py "tags") d with
      | Some (VDict t) =>
          match assoc (py "name") t with
          | Some _ =>
              negb (bool_decide (is_Some (assoc (py "lat") d))
                    && bool_decide (is_Some (assoc (py "lon") d)))
          | None => false
          end
      | _ => false
      end
  | _ => false
  end.

(** Two museums, a nameless node between them. *)
Definition sample_elements : list value :=
  [ VDict [(py "lat", VNum (Finite (525 # 10))); (py "lon", VNum (Finite (134 # 10)));
           (py "tags", VDict [(py "name", VStr (py "Altes Museum"))])];
    VDict [(py "lat", VNum (Finite 52)); (py "lon", VNum (Finite 13))];
    VDict [(py "lat", VNum (Finite 53)); (py "lon", VNum (Finite 14));
           (py "tags", VDict [(py "name", VStr (py "Neues Museum"))])] ].

(** An Overpass service that answers with the sample elements. *)
Definition sample_overpass : request -> result value :=
  fun _ => Return (VDict [(py "elements", VList sample_elements)]).

(** An Overpass service whose second named element lacks its longitude. *)
Definition broken_overpass : request -> result value :=
  fun _ =>
    Return (VDict [(py "elements",
      VList [ VDict [(py "lat", VNum (Finite 52)); (py "lon", VNum (Finite 13));
                     (py "tags", VDict [(py "name", VStr (py "Altes Museum"))])];
              VDict [(py "lat", VNum (Finite 53));
                     (py "tags", VDict [(py "name", VStr (py "Neues Museum"))])] ])]).

(** A geocoder whose only hit lies on the equator. *)
Definition equator_geocoder : request -> result value :=
  fun _ =>
    Return (VList [VDict [(py "lat", VNum (Finite 0));
                          (py "lon", VNum (Finite (134 # 10)));
                          (py "display_name", VStr (py "Null Island"))]]).

(** The values on which [float] is modelled as Python computes it: a text
    (left to [parse_float]), a boolean, a number of magnitude at most
    2^53. *)
Definition float_of (parse_float : list N -> option number) (v : value)
  : option number :=
  match v with
  | VStr s => parse_float s
  | VBool b => Some (of_bool b)
  | VNum (Finite q) => if within_float q then Some (Finite q) else None
  | _ => None
  end.

(** A value that is one of the records of lines 125 to 130. *)
Definition is_place (format_other : value -> list N) (v : value) : Prop :=
  exists name lat lon, v = place_record format_other name lat lon.

(** The map center and the search marker go together: either no search has
    hit yet, or both hold the coordinates of the last hit, numbers whose
    latitude is not zero. *)
Definition located (st : session_state) : Prop :=
  (search_marker st = VNone /\ map_center st = map_center initial_state)
  \/ exists x y name,
       number_truthy x = true
       /\ map_center st = VList [VNum x; VNum y]
       /\ search_marker st
          = VDict [(py "lat", VNum x); (py "lng", VNum y); (py "name", name)].

(** The two messages of one turn of the chat. *)
Definition turn (t : list N * value) : list ChatMessage :=
  [ {| role := py "user"; content := VStr (fst t) |};
    {| role := py "assistant"; content := snd t |} ].

(** A chat history made of whole turns: a question, then its answer. *)
Definition dialogue (ms : list ChatMessage) : Prop :=
  exists turns, ms = flat_map turn turns.

(** One interaction: a handler runs on the state. *)
Inductive step : session_state -> session_state -> Prop :=
  | step_submit name description st :
      step st (submit_recommendation name description st)
  | step_reply i r_text st :
      step st (reply_handler i r_text st)
  | step_search respond parse_float search_query st log st' log' :
      search_handler respond parse_float search_query st log = (Return st', log') ->
      step st st'
  | step_chat respond key prompt st log st' log' :
      chat_handler respond key prompt st log = (Return st', log') ->
      step st st'.

(** The board of [st'] is that of [st] grown: the old recommendations are
    still listed, in their order, after the newer ones, and each old
    dictionary has its place and its reason, and its replies followed by
    the later ones. *)
Definition board_extends (st st' : session_state) : Prop :=
  (exists newer, recommendations st' = newer ++ recommendations st)
  /\ forall l r,
       objects st !! l = Some r ->
       exists r',
         objects st' !! l = Some r'
         /\ place r' = place r /\ desc r' = desc r
         /\ exists later, replies r' = replies r ++ later.

(** The session after a search for Mitte that the sample geocoder answers. *)
Definition after_search : session_state :=
  {| objects := ∅;
     recommendations := [];
     messages := [];
     map_center := VList [VNum (Finite (525 # 10)); VNum (Finite (134 # 10))];
     search_marker :=
       VDict [(py "lat", VNum (Finite (525 # 10))); (py "lng", VNum (Finite (134 # 10)));
              (py "name", VStr (py "Berlin"))] |}.

(** The session after one question asked while the assistant is down. *)
Definition after_question : session_state :=
  {| objects := ∅;
     recommendations := [];
     messages := [ {| role := py "user"; content := VStr (py "Hallo") |};
                   {| role := py "assistant"; content := VStr (py "AI 오류") |} ];
     map_center := map_center initial_state;
     search_marker := VNone |}.

(** * Properties *)

(** ** Strings *)

Lemma startswith_app (p s : list N) :
  startswith p s = true <-> exists post, s = p ++ post.
Proof.
  revert s. induction p as [|a p IH]; intros s; simpl.
  - split; [intros _; by exists s | done].
  - destruct s as [|b s].
    + split; [done | intros [post H]; discriminate H].
    + rewrite andb_true_iff, N.eqb_eq, IH. split.
      * intros [-> [post ->]]. by exists post.
      * intros [post H]. injection H as -> ->. eauto.
Qed.

Lemma contains_infix (needle hay : list N) :
  contains needle hay = true <-> exists pre post, hay = pre ++ needle ++ post.
Proof.
  induction hay as [|c hay IH]; simpl.
  - rewrite orb_false_r, startswith_app. split.
    + intros [post H]. by exists [], post.
    + intros [pre [post H]]. destruct pre; [by exists post | discriminate H].
  - rewrite orb_true_iff, startswith_app, IH. split.
    + intros [[post H] | [pre [post H]]].
      * by exists [], post.
      * exists (c :: pre), post. by rewrite H.
    + intros [pre [post H]]. destruct pre as [|c' pre].
      * left. by exists post.
      * right. injection H as _ H. by exists pre, post.
Qed.

Lemma lstrip_suffix (s : list N) : exists pre, s = pre ++ lstrip s.
Proof.
  induction s as [|c s [pre IH]]; simpl.
  - by exists [].
  - destruct (isspace c).
    + exists (c :: pre). simpl. by f_equal.
    + by exists [].
Qed.

Lemma strip_infix (s : list N) : exists pre post, s = pre ++ strip s ++ post.
Proof.
  unfold strip, rstrip.
  destruct (lstrip_suffix s) as [pre Hpre].
  destruct (lstrip_suffix (rev (lstrip s))) as [post Hpost].
  exists pre, (rev post).
  rewrite <- rev_app_distr, <- Hpost, rev_involutive. exact Hpre.
Qed.

Lemma contains_strip (needle s : list N) :
  contains needle (strip s) = true -> contains needle s = true.
Proof.
  rewrite !contains_infix. intros [pre [post H]].
  destruct (strip_infix s) as [pre' [post' Hs]].
  exists (pre' ++ pre), (post ++ post').
  rewrite Hs, H. by rewrite <- !app_assoc.
Qed.

Lemma replace_char_fixed (old new : N) (s needle : list N) :
  new ∉ needle -> replace_char old new s = needle -> s = needle.
Proof.
  revert needle. induction s as [|c s IH]; intros needle Hnew; simpl.
  - done.
  - destruct needle as [|k needle]; [done|].
    intros H. injection H as Hc Hs.
    apply not_elem_of_cons in Hnew as [Hk Hnew].
    f_equal; [|by apply IH].
    destruct (N.eqb_spec c old); [congruence | done].
Qed.

Lemma contains_replace_char (old new : N) (needle s : list N) :
  new ∉ needle ->
  contains needle (replace_char old new s) = true -> contains needle s = true.
Proof.
  intros Hnew. rewrite !contains_infix. intros [pre [post H]].
  unfold replace_char in H.
  apply fmap_app_inv in H as [s1 [s23 [H1 [H23 ->]]]].
  symmetry in H23. apply fmap_app_inv in H23 as [s2 [s3 [H2 [H3 ->]]]].
  symmetry in H2. apply (replace_char_fixed old new) in H2; [|done]. subst s2.
  by exists s1, s3.
Qed.

(** A header that matches a fragment after it is cleaned matched it before,
    when the fragment holds no blank. *)
Lemma contains_normalize_header (needle c : list N) :
  space ∉ needle ->
  contains needle (normalize_header c) = true -> contains needle c = true.
Proof.
  intros Hsp H. unfold normalize_header in H.
  apply contains_strip in H. by apply contains_replace_char in H.
Qed.

(** ** The search for the two columns *)

Lemma find_columns_last_match (cols : list (list N)) :
  find_columns cols
  = (last_match is_district_header cols None, last_match is_total_header cols None).
Proof.
  unfold find_columns, last_match.
  generalize (@None (list N)) at 1 3 as d. generalize (@None (list N)) as t.
  induction cols as [|c cols IH]; intros t d; simpl; [done|].
  apply IH.
Qed.

Lemma last_match_none P cols init :
  (forall c, c ∈ cols -> P c = false) -> last_match P cols init = init.
Proof.
  revert init. induction cols as [|c cols IH]; intros init H; simpl; [done|].
  unfold last_match in *. simpl.
  rewrite (H c) by apply list_elem_of_here.
  apply IH. intros c' Hc'. apply H. by apply list_elem_of_further.
Qed.

Lemma last_match_some P cols init c :
  last_match P cols init = Some c ->
  (c ∈ cols /\ P c = true) \/ init = Some c.
Proof.
  revert init. induction cols as [|c' cols IH]; intros init; simpl.
  - by right.
  - unfold last_match in *. simpl. intros H. apply IH in H as [[Hin HP] | H].
    + left. split; [by apply list_elem_of_further | done].
    + destruct (P c') eqn:HP.
      * injection H as <-. left. split; [apply list_elem_of_here | done].
      * by right.
Qed.

Lemma district_header_truthy c : is_district_header c = true -> str_truthy c = true.
Proof. destruct c; [discriminate | done]. Qed.

Lemma total_header_truthy c : is_total_header c = true -> str_truthy c = true.
Proof. destruct c; [discriminate | done]. Qed.

Lemma normalized_district_header c :
  is_district_header (normalize_header c) = true -> is_district_header c = true.
Proof.
  apply contains_normalize_header.
  apply (bool_decide_unpack _). by vm_compute.
Qed.

Lemma normalized_total_header c :
  is_total_header (normalize_header c) = true -> is_total_header c = true.
Proof.
  unfold is_total_header. rewrite !andb_true_iff. intros [H1 H2]. split.
  - revert H1. apply contains_normalize_header.
    apply (bool_decide_unpack _). by vm_compute.
  - revert H2. apply contains_normalize_header.
    apply (bool_decide_unpack _). by vm_compute.
Qed.

Section LoaderFacts.

Variable read_excel : list N -> result DataFrame.
Variable parse_text : list N -> option number.
Variable frame_where : DataFrame -> DataFrame -> result DataFrame.
Variable wide_magnitude : list cell -> Q -> number.

Local Abbreviation load :=
  (load_crime_data_for_map read_excel parse_text frame_where wide_magnitude).
Local Abbreviation body :=
  (load_body read_excel parse_text frame_where wide_magnitude).

Lemma load_returns file_name : exists df, load file_name = Return df.
Proof.
  unfold load_crime_data_for_map, try_except.
  destruct (body file_name) as [df|e]; eauto.
Qed.

Lemma load_unreadable file_name e :
  read_excel file_name = Raise e -> load file_name = Return empty_frame.
Proof.
  intros H. unfold load_crime_data_for_map, load_body. by rewrite H.
Qed.

Lemma load_without_columns file_name sheet :
  read_excel file_name = Return sheet ->
  (forall c, c ∈ columns sheet -> is_district_header c = false)
  \/ (forall c, c ∈ columns sheet -> is_total_header c = false) ->
  load file_name = Return empty_frame.
Proof.
  intros Hread Hmiss. unfold load_crime_data_for_map, load_body.
  rewrite Hread. simpl. rewrite find_columns_last_match. simpl.
  destruct Hmiss as [Hd | Ht].
  - rewrite (last_match_none is_district_header); [done|].
    intros c' Hc'. apply list_elem_of_fmap in Hc' as [c [-> Hc]].
    destruct (is_district_header (normalize_header c)) eqn:E; [|done].
    apply normalized_district_header in E. by rewrite (Hd c Hc) in E.
  - rewrite (last_match_none is_total_header); [by rewrite orb_true_r|].
    intros c' Hc'. apply list_elem_of_fmap in Hc' as [c [-> Hc]].
    destruct (is_total_header (normalize_header c)) eqn:E; [|done].
    apply normalized_total_header in E. by rewrite (Ht c Hc) in E.
Qed.

End LoaderFacts.

(** ** Frames *)

Lemma cell_at_nil j : cell_at j [] = Num NaN.
Proof. by destruct j. Qed.

Lemma cell_at_set_cell_eq j v row : cell_at j (set_cell j v row) = v.
Proof.
  revert row. induction j as [|j IH]; intros [|c row]; simpl; try done.
  - apply (IH []).
  - apply IH.
Qed.

Lemma cell_at_set_cell_ne i j v row :
  i ≠ j -> cell_at i (set_cell j v row) = cell_at i row.
Proof.
  revert i row. induction j as [|j IH]; intros [|i] [|c row] Hij; simpl; try done.
  - change (cell_at i (set_cell j v []) = Num NaN).
    rewrite IH by lia. apply cell_at_nil.
  - change (cell_at i (set_cell j v row) = cell_at i row). apply IH. lia.
Qed.

Lemma keep_map {A : Type} (f : A -> bool) (l : list A) :
  keep (map f l) l = List.filter f l.
Proof.
  induction l as [|x l IH]; simpl; [done|]. destruct (f x); by rewrite IH.
Qed.

Lemma map_zip_with {A B C D : Type} (g : C -> D) (f : A -> B -> C)
  (l : list A) (k : list B) :
  map g (zip_with f l k) = zip_with (fun x y => g (f x y)) l k.
Proof.
  revert k. induction l as [|x l IH]; intros [|y k]; simpl; try done.
  by rewrite IH.
Qed.

Lemma Forall2_zip_with_l {A B C : Type} (P : C -> A -> Prop) (f : A -> B -> C)
  (l : list A) (k : list B) :
  length k = length l ->
  (forall x y, P (f x y) x) ->
  Forall2 P (zip_with f l k) l.
Proof.
  intros Hlen H. revert k Hlen.
  induction l as [|x l IH]; intros [|y k] Hlen; simpl in *; try done.
  constructor; [apply H | apply IH; lia].
Qed.

Lemma filter_map {A B : Type} (P : B -> bool) (f : A -> B) (l : list A) :
  List.filter P (map f l) = map f (List.filter (fun x => P (f x)) l).
Proof.
  induction l as [|x l IH]; simpl; [done|]. destruct (P (f x)); simpl; by rewrite IH.
Qed.

Lemma positions_from_map (f : list N -> list N) i label label' cols :
  (forall c, c ∈ cols -> f c = label' <-> c = label) ->
  positions_from i label' (map f cols) = positions_from i label cols.
Proof.
  revert i. induction cols as [|c cols IH]; intros i H; simpl; [done|].
  assert (Hc : f c = label' <-> c = label) by (apply H, list_elem_of_here).
  assert (Hrest : forall c', c' ∈ cols -> f c' = label' <-> c' = label)
    by (intros c' Hc'; by apply H, list_elem_of_further).
  destruct (decide (f c = label')) as [E|E], (decide (c = label)) as [E'|E'];
    try tauto; by rewrite IH.
Qed.

Lemma field_at cols label j row :
  positions label cols = [j] -> field cols label row = cell_at j row.
Proof. unfold field. by intros ->. Qed.

Lemma elem_of_positions_from i label cols p :
  p ∈ positions_from i label cols
  <-> exists k, p = (i + k)%nat /\ cols !! k = Some label.
Proof.
  revert i. induction cols as [|c cols IH]; intros i; simpl.
  - split; [by intros ?%elem_of_nil | by intros (k & _ & ?)].
  - assert (Hrest : p ∈ positions_from (S i) label cols
                    <-> exists k, p = (i + S k)%nat /\ cols !! k = Some label).
    { rewrite IH. split; intros (k & -> & Hk); exists k; split; (lia || done). }
    destruct (decide (c = label)) as [->|Hc].
    + rewrite elem_of_cons, Hrest. split.
      * intros [-> | (k & -> & Hk)]; [exists 0%nat | exists (S k)]; split; (lia || done).
      * intros ([|k] & -> & Hk); [left; lia | right; by exists k].
    + rewrite Hrest. split.
      * intros (k & -> & Hk). by exists (S k).
      * intros ([|k] & -> & Hk); [simpl in Hk; congruence | by exists k].
Qed.

Lemma elem_of_positions label cols p :
  p ∈ positions label cols <-> cols !! p = Some label.
Proof.
  unfold positions. rewrite elem_of_positions_from. split.
  - by intros (k & -> & Hk).
  - intros Hp. by exists p.
Qed.

Lemma positions_single label cols :
  length (positions label cols) = 1%nat ->
  exists j, positions label cols = [j] /\ cols !! j = Some label
            /\ forall p, cols !! p = Some label -> p = j.
Proof.
  intros Hlen. destruct (positions label cols) as [|j [|? ?]] eqn:E; try done.
  exists j. split; [done|]. split.
  - apply elem_of_positions. rewrite E. apply list_elem_of_here.
  - intros p Hp. apply elem_of_positions in Hp. rewrite E in Hp.
    by apply list_elem_of_singleton in Hp.
Qed.

Lemma retained_at cols district_col d sheet_rows :
  positions district_col cols = [d] ->
  retained cols district_col sheet_rows
  = List.filter (fun row => isin_cell berlin_districts (cell_at d row)) sheet_rows.
Proof.
  intros Hd. unfold retained. apply List.filter_ext.
  intros row. by rewrite (field_at _ _ d).
Qed.

Lemma renamed_label (district_col total_col c : list N) :
  default c ((<[total_col := Total_Crime]> (<[district_col := District]> ∅)
                : gmap (list N) (list N)) !! c)
  = if decide (c = total_col) then Total_Crime
    else if decide (c = district_col) then District else c.
Proof.
  destruct (decide (c = total_col)) as [->|Ht].
  - by rewrite lookup_insert_eq.
  - rewrite lookup_insert_ne by done.
    destruct (decide (c = district_col)) as [->|Hd].
    + by rewrite lookup_insert_eq.
    + by rewrite lookup_insert_ne, lookup_empty.
Qed.

Lemma District_not_Total_Crime : District ≠ Total_Crime.
Proof. apply (bool_decide_unpack _). by vm_compute. Qed.

Lemma renamed_lookup cols district_col total_col p label :
  renamed cols district_col total_col !! p = Some label <->
  exists c, cols !! p = Some c
            /\ label = if decide (c = total_col) then Total_Crime
                       else if decide (c = district_col) then District else c.
Proof.
  unfold renamed. rewrite list_lookup_fmap.
  destruct (cols !! p) as [c|]; simpl.
  - rewrite renamed_label. split.
    + intros [= <-]. by exists c.
    + by intros (c' & [= <-] & ->).
  - split; [done | by intros (? & ? & _)].
Qed.

(** Where the two canonical labels sit after the renaming. *)
Lemma renamed_Total_Crime cols district_col total_col p :
  Total_Crime ∉ cols ->
  renamed cols district_col total_col !! p = Some Total_Crime
  <-> cols !! p = Some total_col.
Proof.
  intros HT. rewrite renamed_lookup. split.
  - intros (c & Hc & E). destruct (decide (c = total_col)) as [->|?]; [done|].
    destruct (decide (c = district_col)).
    + by destruct District_not_Total_Crime.
    + subst c. exfalso. apply HT. by apply list_elem_of_lookup_2 in Hc.
  - intros Hp. exists total_col. by rewrite decide_True.
Qed.

Lemma renamed_District cols district_col total_col p :
  District ∉ cols ->
  renamed cols district_col total_col !! p = Some District
  <-> cols !! p = Some district_col /\ district_col ≠ total_col.
Proof.
  intros HD. rewrite renamed_lookup. split.
  - intros (c & Hc & E). destruct (decide (c = total_col)) as [->|Hne].
    + by destruct District_not_Total_Crime.
    + destruct (decide (c = district_col)) as [->|?]; [done|].
      subst c. exfalso. apply HD. by apply list_elem_of_lookup_2 in Hc.
  - intros [Hp Hne]. exists district_col.
    by rewrite decide_False, decide_True.
Qed.

Lemma cell_at_map js j p row :
  js !! j = Some p -> cell_at j (map (fun q => cell_at q row) js) = cell_at p row.
Proof. intros H. unfold cell_at at 1. by rewrite list_lookup_fmap, H. Qed.

(** ** The conversion of the totals *)

Lemma all_truth_lookup (s : list cell) k c :
  forallb is_truth s = true -> s !! k = Some c -> exists b, c = Truth b.
Proof.
  intros Hall Hk. rewrite forallb_forall in Hall.
  apply list_elem_of_lookup_2, list_elem_of_In, Hall in Hk.
  destruct c; try done. by eexists.
Qed.

Lemma of_bool_nonnegative b : nonnegative (of_bool b).
Proof. by destruct b. Qed.

Lemma signed_not_negative x :
  signed false x = NaN \/ nonnegative (signed false x).
Proof.
  destruct x as [q|neg|]; simpl; [right; apply Qabs_nonneg | by right | by left].
Qed.

Lemma fill_cell_number y : exists x, fill_cell zero (Num y) = Num x /\ x ≠ NaN.
Proof. destruct y; simpl; eexists; (split; [reflexivity | done]). Qed.

Lemma fill_cell_not_negative y :
  y = NaN \/ nonnegative y ->
  exists x, fill_cell zero (Num y) = Num x /\ nonnegative x.
Proof.
  intros [-> | Hy].
  - exists zero. split; [done | apply Qle_refl].
  - destruct y; try done; simpl; eexists; (split; [reflexivity | done]).
Qed.

Section ConvertedTotals.

Variable parse_text : list N -> option number.
Variable wide_magnitude : list cell -> Q -> number.

Local Abbreviation converted := (converted_totals parse_text wide_magnitude).

Lemma converted_totals_length s : length (converted s) = length s.
Proof.
  unfold converted_totals, fillna, to_numeric_series.
  destruct (forallb is_truth s); by rewrite ?length_map.
Qed.

(** The value stored for one cell of the column. *)
Lemma converted_totals_lookup s k c :
  s !! k = Some c ->
  converted s !! k
  = Some (if forallb is_truth s then c
          else fill_cell zero (to_numeric_cell parse_text wide_magnitude s c)).
Proof.
  intros Hk. unfold converted_totals, fillna, to_numeric_series.
  destruct (forallb is_truth s) eqn:Hall.
  - rewrite list_lookup_fmap, Hk. simpl.
    by destruct (all_truth_lookup s k c Hall Hk) as [b ->].
  - by rewrite !list_lookup_fmap, Hk.
Qed.

Lemma converted_totals_source s k v :
  converted s !! k = Some v -> exists c, s !! k = Some c.
Proof.
  intros Hv. apply lookup_lt_Some in Hv. rewrite converted_totals_length in Hv.
  by apply lookup_lt_is_Some_2 in Hv as [c Hc]; exists c.
Qed.

Lemma stored_not_negative s x :
  nonnegative x ->
  stored wide_magnitude s x = NaN \/ nonnegative (stored wide_magnitude s x).
Proof.
  destruct x as [q|neg|]; simpl; [|by right|done].
  intros Hq. destruct (within_float q); [by right|].
  assert (E : Qle_bool 0 q = true) by (by apply Qle_bool_iff).
  rewrite E. simpl. apply signed_not_negative.
Qed.

(** Every value stored is a number, never missing. *)
Lemma converted_is_number s k v :
  converted s !! k = Some v -> exists x, numeric_value v = Some x /\ x ≠ NaN.
Proof.
  intros Hv. destruct (converted_totals_source s k v Hv) as [c Hk].
  rewrite (converted_totals_lookup s k c Hk) in Hv. injection Hv as <-.
  destruct (forallb is_truth s) eqn:Hall.
  - destruct (all_truth_lookup s k c Hall Hk) as [b ->]. simpl.
    exists (of_bool b). by destruct b.
  - unfold to_numeric_cell. destruct c as [x|t|b].
    + destruct (fill_cell_number (stored wide_magnitude s x)) as (y & -> & Hy).
      by exists y.
    + destruct (parse_number parse_text t) as [x|].
      * destruct (fill_cell_number (stored wide_magnitude s x)) as (y & -> & Hy).
        by exists y.
      * by exists zero.
    + simpl. exists (of_bool b). by destruct b.
Qed.

(** An empty cell and a text that does not convert are stored as 0. *)
Lemma converted_unconverted s k c :
  s !! k = Some c -> unconverted parse_text c ->
  converted s !! k = Some (Num zero).
Proof.
  intros Hk Hc. rewrite (converted_totals_lookup s k c Hk).
  destruct (forallb is_truth s) eqn:Hall.
  - destruct (all_truth_lookup s k c Hall Hk) as [b ->]. done.
  - unfold to_numeric_cell. destruct c as [[q|neg|]|t|b]; try done.
    simpl in Hc. by rewrite Hc.
Qed.

(** A cell that holds no negative number is stored as a number that is
    not negative. *)
Lemma converted_not_negative s k c :
  s !! k = Some c -> not_negative parse_text c ->
  exists v x,
    converted s !! k = Some v /\ numeric_value v = Some x /\ nonnegative x.
Proof.
  intros Hk Hc. rewrite (converted_totals_lookup s k c Hk).
  destruct (forallb is_truth s) eqn:Hall.
  - destruct (all_truth_lookup s k c Hall Hk) as [b ->].
    exists (Truth b), (of_bool b). split; [done|]. split; [done|].
    apply of_bool_nonnegative.
  - unfold to_numeric_cell. destruct c as [x|t|b].
    + assert (Hx : stored wide_magnitude s x = NaN
                   \/ nonnegative (stored wide_magnitude s x)).
      { destruct x as [q|neg|]; [by apply stored_not_negative
                                | by apply stored_not_negative | by left]. }
      destruct (fill_cell_not_negative _ Hx) as (y & Hy & Hnn).
      exists (Num y), y. by rewrite Hy.
    + simpl in Hc. destruct (parse_number parse_text t) as [x|].
      * assert (Hx : stored wide_magnitude s x = NaN
                     \/ nonnegative (stored wide_magnitude s x)).
        { destruct x as [q|neg|]; [by apply stored_not_negative
                                  | by apply stored_not_negative | by left]. }
        destruct (fill_cell_not_negative _ Hx) as (y & Hy & Hnn).
        exists (Num y), y. by rewrite Hy.
      * exists (Num zero), zero. split; [done|]. split; [done | apply Qle_refl].
    + exists (Num (of_bool b)), (of_bool b). split; [by destruct b|].
      split; [done | apply of_bool_nonnegative].
Qed.

End ConvertedTotals.

(** ** Lines 74 to 91 *)

Section NormalizeFacts.

Variable parse_text : list N -> option number.
Variable frame_where : DataFrame -> DataFrame -> result DataFrame.
Variable wide_magnitude : list cell -> Q -> number.

(** Lines 74 to 91 when the district label is carried by one column. *)
Lemma normalize_table_single cols sheet_rows district_col total_col d :
  positions district_col cols = [d] ->
  normalize_table parse_text frame_where wide_magnitude
    {| columns := cols; rows := sheet_rows |} district_col total_col
  = match positions total_col cols with
    | [] => Raise KeyError
    | [t] => getitem_list
               (cleaned parse_text wide_magnitude cols district_col total_col d t
                  sheet_rows)
               [District; Total_Crime]
    | _ => Raise TypeError
    end.
Proof.
  intros Hpd. unfold normalize_table, getitem. simpl. rewrite Hpd. simpl.
  unfold getitem. simpl.
  destruct (positions total_col cols) as [|t [|t' ts]] eqn:Hpt; simpl; try done.
  unfold setitem. simpl. rewrite Hpt. simpl.
  unfold cleaned, rename, column, converted_totals. simpl.
  by rewrite !map_map, !keep_map.
Qed.

(** Lines 74 to 91 when no column carries the district label. *)
Lemma normalize_table_absent cols sheet_rows district_col total_col :
  positions district_col cols = [] ->
  normalize_table parse_text frame_where wide_magnitude
    {| columns := cols; rows := sheet_rows |} district_col total_col
  = Raise KeyError.
Proof. intros Hpd. unfold normalize_table, getitem. simpl. by rewrite Hpd. Qed.

(** Lines 74 to 91 when several columns carry the district label and the
    selection by the frame of booleans is refused. *)
Lemma normalize_table_repeated cols sheet_rows district_col total_col d d' ds :
  positions district_col cols = d :: d' :: ds ->
  normalize_table parse_text where_refused wide_magnitude
    {| columns := cols; rows := sheet_rows |} district_col total_col
  = Raise ValueError.
Proof. intros Hpd. unfold normalize_table, getitem. simpl. by rewrite Hpd. Qed.

Lemma getitem_list_pair df out :
  getitem_list df [District; Total_Crime] = Return out ->
  positions District (columns df) ≠ []
  /\ positions Total_Crime (columns df) ≠ []
  /\ out = take_columns
             (positions District (columns df) ++ positions Total_Crime (columns df)) df.
Proof.
  unfold getitem_list. simpl.
  destruct (bool_decide_reflect (positions District (columns df) ≠ [])) as [HD|?];
    [|done].
  destruct (bool_decide_reflect (positions Total_Crime (columns df) ≠ [])) as [HT|?];
    [|done].
  simpl. rewrite app_nil_r. by intros [= <-].
Qed.

(** The output of lines 74 to 91 is a choice of columns of the cleaned
    frame, when the district label is carried by one column. *)
Lemma normalize_table_columns cols sheet_rows district_col total_col d out :
  positions district_col cols = [d] ->
  normalize_table parse_text frame_where wide_magnitude
    {| columns := cols; rows := sheet_rows |} district_col total_col = Return out ->
  exists t,
    positions total_col cols = [t]
    /\ positions District (renamed cols district_col total_col) ≠ []
    /\ positions Total_Crime (renamed cols district_col total_col) ≠ []
    /\ out = take_columns
               (positions District (renamed cols district_col total_col)
                ++ positions Total_Crime (renamed cols district_col total_col))
               (cleaned parse_text wide_magnitude cols district_col total_col d t
                  sheet_rows).
Proof.
  intros Hpd. rewrite (normalize_table_single _ _ _ _ d) by done.
  destruct (positions total_col cols) as [|t [|t' ts]] eqn:Hpt; try done.
  intros (HD & HT & ->)%getitem_list_pair. by exists t.
Qed.

(** The rows of the cleaned frame: the rows kept, their total cell
    replaced by the value stored for it. *)
Lemma cleaned_rows cols sheet_rows district_col total_col d t :
  positions district_col cols = [d] ->
  positions total_col cols = [t] ->
  rows (cleaned parse_text wide_magnitude cols district_col total_col d t sheet_rows)
  = zip_with (fun row v => set_cell t v row)
      (retained cols district_col sheet_rows)
      (converted_totals parse_text wide_magnitude
         (map (field cols total_col) (retained cols district_col sheet_rows))).
Proof.
  intros Hpd Hpt. unfold cleaned. simpl.
  rewrite (retained_at _ _ d) by done.
  f_equal. f_equal. apply map_ext. intros row. by rewrite (field_at _ _ t).
Qed.

(** On standard headers the run of lines 74 to 91 yields the table the
    six steps describe. *)
Lemma normalize_table_standard cols sheet_rows district_col total_col :
  standard_headers cols district_col total_col ->
  normalize_table parse_text frame_where wide_magnitude
    {| columns := cols; rows := sheet_rows |} district_col total_col
  = Return (normalized_table parse_text wide_magnitude cols district_col total_col
              sheet_rows).
Proof.
  intros (_ & Hne & Hd & Ht & HD & HT).
  apply positions_single in Hd as (d & Hpd & Hld & Hud).
  apply positions_single in Ht as (t & Hpt & Hlt & Hut).
  assert (Hdt : d ≠ t) by (intros ->; congruence).
  rewrite (normalize_table_single _ _ _ _ d), Hpt by done.
  assert (HposD : positions District (renamed cols district_col total_col) = [d]).
  { rewrite <- Hpd. unfold positions, renamed. apply positions_from_map.
    intros c Hc. rewrite renamed_label.
    destruct (decide (c = total_col)) as [->|?].
    - split; [intros E; by destruct District_not_Total_Crime | congruence].
    - destruct (decide (c = district_col)) as [->|?]; [done|].
      split; [intros ->; done | done]. }
  assert (HposT : positions Total_Crime (renamed cols district_col total_col) = [t]).
  { rewrite <- Hpt. unfold positions, renamed. apply positions_from_map.
    intros c Hc. rewrite renamed_label.
    destruct (decide (c = total_col)) as [->|?]; [done|].
    destruct (decide (c = district_col)) as [->|?].
    - split; [intros E; by destruct District_not_Total_Crime | done].
    - split; [intros ->; done | done]. }
  unfold getitem_list.
  assert (Hcols : columns (cleaned parse_text wide_magnitude cols district_col total_col
                             d t sheet_rows)
                  = renamed cols district_col total_col) by done.
  rewrite Hcols. simpl. rewrite HposD, HposT. simpl.
  unfold take_columns, normalized_table. rewrite Hcols, cleaned_rows by done.
  f_equal. f_equal.
  - assert (H1 : renamed cols district_col total_col !! d = Some District)
      by (by apply renamed_District).
    assert (H2 : renamed cols district_col total_col !! t = Some Total_Crime)
      by (by apply renamed_Total_Crime).
    simpl. by rewrite H1, H2.
  - rewrite map_zip_with. apply zip_with_ext; [|done..].
    intros row v. simpl.
    rewrite cell_at_set_cell_ne, cell_at_set_cell_eq by done.
    by rewrite (field_at _ _ d).
Qed.

End NormalizeFacts.

Section LoaderOutput.

Variable read_excel : list N -> result DataFrame.
Variable parse_text : list N -> option number.
Variable frame_where : DataFrame -> DataFrame -> result DataFrame.
Variable wide_magnitude : list cell -> Q -> number.

Local Abbreviation load :=
  (load_crime_data_for_map read_excel parse_text frame_where wide_magnitude).

(** The loader returns the empty frame or what lines 74 to 91 return on
    the two columns found. *)
Lemma load_cases file_name sheet out :
  read_excel file_name = Return sheet ->
  load file_name = Return out ->
  out = empty_frame
  \/ exists district_col total_col,
       find_columns (map normalize_header (columns sheet))
       = (Some district_col, Some total_col)
       /\ normalize_table parse_text frame_where wide_magnitude
            {| columns := map normalize_header (columns sheet); rows := rows sheet |}
            district_col total_col = Return out.
Proof.
  intros Hread. unfold load_crime_data_for_map, load_body. rewrite Hread. simpl.
  destruct (find_columns (map normalize_header (columns sheet)))
    as [[district_col|] [total_col|]]; simpl.
  2-4: rewrite ?orb_true_r; simpl; intros [= E]; subst out; by left.
  destruct (negb (str_truthy district_col) || negb (str_truthy total_col));
    [simpl; intros [= E]; subst out; by left|].
  destruct (normalize_table _ _ _ _ _ _) as [df|e] eqn:E; simpl.
  - intros [= E']. subst out. right. by exists district_col, total_col.
  - intros [= E']. subst out. by left.
Qed.

Lemma load_standard file_name sheet district_col total_col :
  read_excel file_name = Return sheet ->
  standard_headers (map normalize_header (columns sheet)) district_col total_col ->
  load file_name
  = Return (normalized_table parse_text wide_magnitude
              (map normalize_header (columns sheet)) district_col total_col
              (rows sheet)).
Proof.
  intros Hread Hstd. pose proof Hstd as (Hfind & _).
  unfold load_crime_data_for_map, load_body. rewrite Hread. simpl.
  rewrite Hfind. simpl.
  rewrite find_columns_last_match in Hfind. injection Hfind as Hd Ht.
  apply last_match_some in Hd as [[_ Hd] | ?]; [|done].
  apply last_match_some in Ht as [[_ Ht] | ?]; [|done].
  rewrite (district_header_truthy _ Hd), (total_header_truthy _ Ht). simpl.
  by rewrite normalize_table_standard.
Qed.

(** C1.  Whatever the file name and whatever reading the file does, the
    loader returns a frame and raises nothing; when the file cannot be
    read, or when no header of the sheet contains [Bezeichnung], or none
    contains both [Straftaten] and [insgesamt], the frame returned is
    the empty one, [pd.DataFrame()]; and on a sheet with standard headers
    it is the table of the normalized rows. *)
Theorem loader_never_raises file_name :
  (exists df, load file_name = Return df)
  /\ (forall e, read_excel file_name = Raise e -> load file_name = Return empty_frame)
  /\ (forall sheet,
        read_excel file_name = Return sheet ->
        (forall c, c ∈ columns sheet -> contains (py "Bezeichnung") c = false)
        \/ (forall c, c ∈ columns sheet ->
              contains (py "Straftaten") c && contains (py "insgesamt") c = false) ->
        load file_name = Return empty_frame)
  /\ (forall sheet district_col total_col,
        read_excel file_name = Return sheet ->
        standard_headers (map normalize_header (columns sheet)) district_col total_col ->
        load file_name
        = Return (normalized_table parse_text wide_magnitude
                    (map normalize_header (columns sheet))
                    district_col total_col (rows sheet))).
Proof.
  split; [apply load_returns|].
  split; [apply load_unreadable|].
  split.
  - intros sheet Hread Hmiss.
    by apply (load_without_columns read_excel parse_text frame_where wide_magnitude
                file_name sheet).
  - intros sheet district_col total_col. apply load_standard.
Qed.

(** C2.  When the sheet read has the headers [Bezeichnung (Bezirk)] and
    [Straftaten -insgesamt-] and the two rows (Mitte, 12345) and
    (Berlin total, 99999), the totals being texts or already numbers, the
    loader returns exactly the one-row table District = Mitte,
    Total_Crime = 12345; no row of it carries Berlin total. *)
Theorem scenario_table file_name :
  read_excel file_name = Return scenario_sheet
  \/ read_excel file_name = Return scenario_sheet_read_as_numbers ->
  load file_name
  = Return {| columns := [District; Total_Crime];
              rows := [[Text (py "Mitte"); Num (Finite 12345)]] |}
  /\ forall out row,
       load file_name = Return out -> row ∈ rows out ->
       Text (py "Berlin total") ∉ row.
Proof.
  intros Hread.
  assert (E : load file_name
              = Return {| columns := [District; Total_Crime];
                          rows := [[Text (py "Mitte"); Num (Finite 12345)]] |}).
  { unfold load_crime_data_for_map, load_body.
    destruct Hread as [-> | ->]; by vm_compute. }
  split; [exact E|].
  intros out row. rewrite E. intros [= <-]. simpl.
  intros ->%list_elem_of_singleton Hin.
  apply elem_of_cons in Hin as [Hin | Hin]; [by vm_compute in Hin|].
  by apply list_elem_of_singleton in Hin.
Qed.

End LoaderOutput.

(** ** The rows and the values of the output *)

Section LoaderRows.

Variable read_excel : list N -> result DataFrame.
Variable parse_text : list N -> option number.
Variable wide_magnitude : list cell -> Q -> number.

Local Abbreviation load :=
  (load_crime_data_for_map read_excel parse_text where_refused wide_magnitude).

(** What the loader returns: the empty frame, or the [District] columns
    followed by the [Total_Crime] columns of the cleaned frame, each of the
    two labels found being carried by one column. *)
Lemma load_shape file_name sheet out :
  read_excel file_name = Return sheet ->
  load file_name = Return out ->
  out = empty_frame
  \/ exists district_col total_col d t,
       find_columns (map normalize_header (columns sheet))
       = (Some district_col, Some total_col)
       /\ positions district_col (map normalize_header (columns sheet)) = [d]
       /\ positions total_col (map normalize_header (columns sheet)) = [t]
       /\ positions Total_Crime
            (renamed (map normalize_header (columns sheet)) district_col total_col)
          ≠ []
       /\ out = take_columns
                  (positions District
                     (renamed (map normalize_header (columns sheet))
                        district_col total_col)
                   ++ positions Total_Crime
                        (renamed (map normalize_header (columns sheet))
                           district_col total_col))
                  (cleaned parse_text wide_magnitude
                     (map normalize_header (columns sheet))
                     district_col total_col d t (rows sheet)).
Proof.
  intros Hread Hload.
  destruct (load_cases _ _ _ _ _ _ _ Hread Hload)
    as [-> | (district_col & total_col & Hfind & Hout)]; [by left|].
  right. exists district_col, total_col.
  destruct (positions district_col (map normalize_header (columns sheet)))
    as [|d [|d' ds]] eqn:Hpd.
  - by rewrite (normalize_table_absent _ _ _ _ _ _ _ Hpd) in Hout.
  - destruct (normalize_table_columns _ _ _ _ _ _ _ d _ Hpd Hout)
      as (t & Hpt & _ & HT & Hshape).
    by exists d, t.
  - by rewrite (normalize_table_repeated _ _ _ _ _ _ d d' ds Hpd) in Hout.
Qed.

(** A row of such an output stems from the row the filter kept at the
    same place, and carries the value stored for its total. *)
Lemma output_row cols sheet_rows district_col total_col d t js k out_row :
  positions district_col cols = [d] ->
  positions total_col cols = [t] ->
  rows (take_columns js
          (cleaned parse_text wide_magnitude cols district_col total_col d t
             sheet_rows)) !! k = Some out_row ->
  exists row v,
    retained cols district_col sheet_rows !! k = Some row
    /\ converted_totals parse_text wide_magnitude
         (map (field cols total_col) (retained cols district_col sheet_rows)) !! k
       = Some v
    /\ out_row = map (fun j => cell_at j (set_cell t v row)) js.
Proof.
  intros Hpd Hpt. unfold take_columns.
  rewrite (cleaned_rows _ _ _ _ _ _ d t) by done. simpl.
  rewrite list_lookup_fmap. intros (r & Hr & ->)%fmap_Some.
  apply lookup_zip_with_Some in Hr as (row & v & -> & Hrow & Hv).
  by exists row, v.
Qed.

(** Each row the filter kept has its row in such an output. *)
Lemma output_row_exists cols sheet_rows district_col total_col d t js k row :
  positions district_col cols = [d] ->
  positions total_col cols = [t] ->
  retained cols district_col sheet_rows !! k = Some row ->
  exists out_row,
    rows (take_columns js
            (cleaned parse_text wide_magnitude cols district_col total_col d t
               sheet_rows)) !! k = Some out_row.
Proof.
  intros Hpd Hpt Hrow. apply lookup_lt_is_Some_2. unfold take_columns.
  rewrite (cleaned_rows _ _ _ _ _ _ d t) by done. simpl.
  rewrite length_map, length_zip_with, converted_totals_length, length_map.
  apply lookup_lt_Some in Hrow. lia.
Qed.

(** The label of a column of such an output is the label of the column
    chosen. *)
Lemma output_label cols district_col total_col j label :
  map (fun p => default [] (renamed cols district_col total_col !! p))
    (positions District (renamed cols district_col total_col)
     ++ positions Total_Crime (renamed cols district_col total_col)) !! j
  = Some label ->
  exists p,
    (positions District (renamed cols district_col total_col)
     ++ positions Total_Crime (renamed cols district_col total_col)) !! j = Some p
    /\ renamed cols district_col total_col !! p = Some label.
Proof.
  rewrite list_lookup_fmap.
  destruct ((positions District (renamed cols district_col total_col)
             ++ positions Total_Crime (renamed cols district_col total_col)) !! j)
    as [p|] eqn:Hp; [|done].
  simpl. intros H. exists p. split; [done|].
  apply list_elem_of_lookup_2, elem_of_app in Hp as [Hp | Hp];
    apply elem_of_positions in Hp; rewrite Hp in H |- *; exact H.
Qed.

(** Without a header [Total_Crime], the value under [Total_Crime] is the
    value stored for the total. *)
Lemma output_total cols district_col total_col t j v row :
  Total_Crime ∉ cols ->
  positions total_col cols = [t] ->
  map (fun p => default [] (renamed cols district_col total_col !! p))
    (positions District (renamed cols district_col total_col)
     ++ positions Total_Crime (renamed cols district_col total_col)) !! j
  = Some Total_Crime ->
  cell_at j
    (map (fun p => cell_at p (set_cell t v row))
       (positions District (renamed cols district_col total_col)
        ++ positions Total_Crime (renamed cols district_col total_col)))
  = v.
Proof.
  intros HT Hpt (p & Hp & Hlabel)%output_label.
  rewrite (cell_at_map _ _ p) by done.
  apply renamed_Total_Crime in Hlabel; [|done].
  apply elem_of_positions in Hlabel. rewrite Hpt in Hlabel.
  apply list_elem_of_singleton in Hlabel. subst p. apply cell_at_set_cell_eq.
Qed.

(** Without a header [District], the value under [District] is the
    district of the sheet row. *)
Lemma output_district cols district_col total_col d t j v row :
  District ∉ cols ->
  positions district_col cols = [d] ->
  positions total_col cols = [t] ->
  map (fun p => default [] (renamed cols district_col total_col !! p))
    (positions District (renamed cols district_col total_col)
     ++ positions Total_Crime (renamed cols district_col total_col)) !! j
  = Some District ->
  cell_at j
    (map (fun p => cell_at p (set_cell t v row))
       (positions District (renamed cols district_col total_col)
        ++ positions Total_Crime (renamed cols district_col total_col)))
  = field cols district_col row.
Proof.
  intros HD Hpd Hpt (p & Hp & Hlabel)%output_label.
  rewrite (cell_at_map _ _ p) by done.
  apply renamed_District in Hlabel as [Hlabel Hne]; [|done].
  assert (Ht : cols !! t = Some total_col).
  { apply elem_of_positions. rewrite Hpt. apply list_elem_of_here. }
  apply elem_of_positions in Hlabel as Hin. rewrite Hpd in Hin.
  apply list_elem_of_singleton in Hin. subst p.
  rewrite cell_at_set_cell_ne by (intros ->; congruence).
  by rewrite (field_at _ _ d).
Qed.

(** C3, as amended.  The output rows stem, in order, one from each sheet
    row whose district value is one of the twelve names: a row whose
    district value is not among them leaves no row in the output, whatever
    the headers.  When no cleaned header is [District] itself, every value
    under [District] in the output is one of the twelve names. *)
Theorem districts_listed_without_clash file_name sheet out :
  read_excel file_name = Return sheet ->
  load file_name = Return out ->
  (rows out = []
   \/ exists district_col js t,
        fst (find_columns (map normalize_header (columns sheet))) = Some district_col
        /\ Forall2 (stems_from js t) (rows out)
             (retained (map normalize_header (columns sheet)) district_col
                (rows sheet)))
  /\ (District ∉ map normalize_header (columns sheet) -> districts_listed out).
Proof.
  intros Hread Hload.
  destruct (load_shape _ _ _ Hread Hload)
    as [-> | (district_col & total_col & d & t & Hfind & Hpd & Hpt & _ & ->)].
  { split; [by left | by intros _ row j ?%elem_of_nil]. }
  split.
  - right. eexists district_col, _, t. split; [by rewrite Hfind|].
    unfold take_columns. rewrite (cleaned_rows _ _ _ _ _ _ d t) by done. simpl.
    rewrite map_zip_with. apply Forall2_zip_with_l.
    + by rewrite converted_totals_length, length_map.
    + intros row v. by exists v.
  - intros HD out_row j Hin Hj.
    apply list_elem_of_lookup_1 in Hin as [k Hk].
    apply (output_row _ _ _ _ d t) in Hk as (row & v & Hrow & _ & ->); [|done..].
    rewrite (output_district _ _ _ d t) by done.
    apply list_elem_of_lookup_2, list_elem_of_In, List.filter_In in Hrow as [_ Hrow].
    unfold isin_cell in Hrow.
    destruct (field _ district_col row) as [|s|]; try done.
    exists s. split; [done | by apply bool_decide_eq_true in Hrow].
Qed.

(** C4, as amended.  Take a sheet on which the loader returns a table and
    not the empty frame.  If the [k]-th row the filter keeps has, in the
    total column, a text that does not convert to a number, the [k]-th row
    of the output exists and shows 0 under [Total_Crime], in the column
    that stems from the total column; when no cleaned header of the sheet
    is [Total_Crime] itself, that is the row's only value under
    [Total_Crime]. *)
Theorem non_numeric_total_is_zero
  file_name sheet out district_col total_col k row s :
  read_excel file_name = Return sheet ->
  find_columns (map normalize_header (columns sheet))
  = (Some district_col, Some total_col) ->
  load file_name = Return out ->
  out ≠ empty_frame ->
  retained (map normalize_header (columns sheet)) district_col (rows sheet) !! k
  = Some row ->
  field (map normalize_header (columns sheet)) total_col row = Text s ->
  parse_number parse_text s = None ->
  shows_zero_total out k
  /\ (Total_Crime ∉ map normalize_header (columns sheet) -> total_is_zero out k).
Proof.
  intros Hread Hfind Hload Hout Hrow Htext Hfail.
  destruct (load_shape _ _ _ Hread Hload)
    as [-> | (district_col' & total_col' & d & t & Hfind' & Hpd & Hpt & _ & ->)];
    [done|].
  rewrite Hfind in Hfind'. injection Hfind' as <- <-.
  set (cols := map normalize_header (columns sheet)) in *.
  set (js := positions District (renamed cols district_col total_col)
             ++ positions Total_Crime (renamed cols district_col total_col)).
  destruct (output_row_exists _ _ _ _ d t js k row Hpd Hpt Hrow) as [out_row Hk].
  pose proof Hk as Hk'.
  apply (output_row _ _ _ _ d t) in Hk' as (row' & v & Hrow' & Hv & Hout_row);
    [|done..].
  rewrite Hrow in Hrow'. injection Hrow' as <-.
  rewrite (converted_unconverted _ _ _ k (Text s)) in Hv; [|
    by rewrite list_lookup_fmap, Hrow; simpl; rewrite Htext | exact Hfail].
  injection Hv as <-.
  assert (Ht : renamed cols district_col total_col !! t = Some Total_Crime).
  { apply renamed_lookup. exists total_col. split; [|by rewrite decide_True].
    apply elem_of_positions. rewrite Hpt. apply list_elem_of_here. }
  assert (Hj : exists j, js !! j = Some t).
  { apply list_elem_of_lookup_1, elem_of_app. right. by apply elem_of_positions. }
  destruct Hj as [j Hj].
  assert (Hlabel : columns (take_columns js
                              (cleaned parse_text wide_magnitude cols district_col
                                 total_col d t (rows sheet))) !! j
                   = Some Total_Crime).
  { unfold take_columns. simpl. by rewrite list_lookup_fmap, Hj; simpl; rewrite Ht. }
  split.
  - exists out_row, j. split; [exact Hk|]. split; [exact Hlabel|].
    rewrite Hout_row, (cell_at_map _ _ t) by done. apply cell_at_set_cell_eq.
  - intros HT. exists out_row. split; [exact Hk|]. split; [by exists j|].
    intros j' Hj'. rewrite Hout_row. by apply (output_total _ _ _ t).
Qed.

(** C5, as amended.  On a sheet none of whose cleaned headers is
    [Total_Crime], every value under [Total_Crime] in the output is a
    number, never missing; it is 0 for a row whose total cell is empty or
    holds a text that does not convert; and no total of the output is
    negative as soon as no sheet row with one of the twelve names holds a
    negative total.  On a sheet none of whose cleaned headers is
    [District], no two rows of the output show the same district as soon
    as no two sheet rows hold the same one of the twelve names. *)
Theorem totals_are_numbers file_name sheet out :
  read_excel file_name = Return sheet ->
  load file_name = Return out ->
  (Total_Crime ∉ map normalize_header (columns sheet) ->
   (forall out_row j,
      out_row ∈ rows out -> columns out !! j = Some Total_Crime ->
      exists x, numeric_value (cell_at j out_row) = Some x /\ x ≠ NaN)
   /\ (forall district_col total_col k row out_row j,
         find_columns (map normalize_header (columns sheet))
         = (Some district_col, Some total_col) ->
         retained (map normalize_header (columns sheet)) district_col (rows sheet) !! k
         = Some row ->
         unconverted parse_text
           (field (map normalize_header (columns sheet)) total_col row) ->
         rows out !! k = Some out_row ->
         columns out !! j = Some Total_Crime ->
         cell_at j out_row = Num zero)
   /\ (forall district_col total_col,
         find_columns (map normalize_header (columns sheet))
         = (Some district_col, Some total_col) ->
         (forall row,
            row ∈ rows sheet ->
            isin_cell berlin_districts
              (field (map normalize_header (columns sheet)) district_col row) = true ->
            not_negative parse_text
              (field (map normalize_header (columns sheet)) total_col row)) ->
         totals_nonnegative out))
  /\ (District ∉ map normalize_header (columns sheet) ->
      forall district_col,
        fst (find_columns (map normalize_header (columns sheet))) = Some district_col ->
        NoDup (listed_districts (map normalize_header (columns sheet)) district_col
                 (rows sheet)) ->
        one_row_per_district out).
Proof.
  intros Hread Hload.
  destruct (load_shape _ _ _ Hread Hload)
    as [-> | (district_col & total_col & d & t & Hfind & Hpd & Hpt & _ & ->)].
  { split.
    - intros _. split; [by intros out_row j ?%elem_of_nil|].
      split; [by intros ? ? ? ? ? ? _ _ _ ?|].
      by intros ? ? _ _ out_row j ?%elem_of_nil.
    - by intros _ ? _ _ i j r1 r2 p ?. }
  set (cols := map normalize_header (columns sheet)) in *.
  split.
  - intros HT. split; [|split].
    + intros out_row j Hin Hj.
      apply list_elem_of_lookup_1 in Hin as [k Hk].
      apply (output_row _ _ _ _ d t) in Hk as (row & v & Hrow & Hv & ->); [|done..].
      rewrite (output_total _ _ _ t) by done.
      by apply converted_is_number in Hv.
    + intros district_col' total_col' k row out_row j Hfind' Hrow Hcell Hk Hj.
      rewrite Hfind in Hfind'. injection Hfind' as <- <-.
      apply (output_row _ _ _ _ d t) in Hk as (row' & v & Hrow' & Hv & ->); [|done..].
      rewrite Hrow in Hrow'. injection Hrow' as <-.
      rewrite (output_total _ _ _ t) by done.
      rewrite (converted_unconverted _ _ _ k (field cols total_col row)) in Hv.
      * by injection Hv as <-.
      * by rewrite list_lookup_fmap, Hrow.
      * exact Hcell.
    + intros district_col' total_col' Hfind' Hsheet out_row j Hin Hj.
      rewrite Hfind in Hfind'. injection Hfind' as <- <-.
      apply list_elem_of_lookup_1 in Hin as [k Hk].
      apply (output_row _ _ _ _ d t) in Hk as (row & v & Hrow & Hv & ->); [|done..].
      rewrite (output_total _ _ _ t) by done.
      assert (Hin : row ∈ retained cols district_col (rows sheet))
        by (by apply list_elem_of_lookup_2 in Hrow).
      apply list_elem_of_In, List.filter_In in Hin as [Hin Hlisted].
      apply list_elem_of_In in Hin.
      destruct (converted_not_negative parse_text wide_magnitude
                  (map (field cols total_col) (retained cols district_col (rows sheet)))
                  k (field cols total_col row))
        as (v' & x & Hv' & Hx & Hnn).
      * by rewrite list_lookup_fmap, Hrow.
      * by apply Hsheet.
      * rewrite Hv in Hv'. injection Hv' as <-. by exists x.
  - intros HD district_col'. rewrite Hfind. simpl. intros [= <-] Hnodup.
    intros i j r1 r2 p Hi Hj Hp Heq.
    apply (output_row _ _ _ _ d t) in Hi as (row1 & v1 & Hrow1 & _ & ->); [|done..].
    apply (output_row _ _ _ _ d t) in Hj as (row2 & v2 & Hrow2 & _ & ->); [|done..].
    rewrite !(output_district _ _ _ d t) in Heq by done.
    unfold listed_districts in Hnodup. rewrite filter_map in Hnodup.
    apply (NoDup_lookup _ i j (field cols district_col row1) Hnodup).
    + unfold retained in Hrow1. by rewrite list_lookup_fmap, Hrow1.
    + unfold retained in Hrow2. by rewrite list_lookup_fmap, Hrow2, Heq.
Qed.

End LoaderRows.

(** C3, as stated, fails: on a sheet that already has a [District] column
    and whose other column matches all three fragments, that column is both
    the district and the total column, the renaming dictionary keeps only
    its second entry, and the loader returns the row of the foreign
    [District] column, whose value is none of the twelve names. *)
Lemma foreign_district_listed :
  load_crime_data_for_map (fun _ => Return clash_sheet) digits_only where_refused keep_wide
    CRIME_FILE_NAME
  = Return {| columns := [District; Total_Crime];
              rows := [[Text (py "Nowhere"); Num zero]] |}
  /\ ~ districts_listed {| columns := [District; Total_Crime];
                           rows := [[Text (py "Nowhere"); Num zero]] |}.
Proof.
  split; [by vm_compute|].
  intros H. destruct (H [Text (py "Nowhere"); Num zero] 0%nat) as (s & Hs & Hin).
  - apply list_elem_of_here.
  - done.
  - injection Hs as <-. revert Hin. apply (bool_decide_unpack _). by vm_compute.
Qed.

(** The same clash with a separate district column: the output has three
    columns, two of them under [District]. *)
Lemma extra_District_column :
  load_crime_data_for_map (fun _ => Return extra_column_sheet) digits_only where_refused keep_wide
    CRIME_FILE_NAME
  = Return {| columns := [District; District; Total_Crime];
              rows := [[Text (py "Mitte"); Text (py "Zone A"); Num (Finite 12345)]] |}.
Proof. by vm_compute. Qed.

(** C4, as stated, fails on two sheets whose only row is kept by the filter
    and holds the text unknown as its total.  On the first, which has a
    column already named [Total_Crime], the output row shows that column's
    text under [Total_Crime] beside the 0.  On the second, two columns
    carry the label of the total column, the conversion is refused and the
    loader returns the empty frame: the row kept has no row in the
    output. *)
Lemma retained_total_without_zero :
  (load_crime_data_for_map (reads foreign_total_sheet) digits_only where_refused
     keep_wide CRIME_FILE_NAME
   = Return {| columns := [District; Total_Crime; Total_Crime];
               rows := [[Text (py "Mitte"); Num zero; Text (py "abc")]] |}
   /\ retained (map normalize_header (columns foreign_total_sheet))
        (py "Bezeichnung (Bezirk)") (rows foreign_total_sheet) !! 0%nat
      = Some [Text (py "Mitte"); Text (py "unknown"); Text (py "abc")]
   /\ field (map normalize_header (columns foreign_total_sheet))
        (py "Straftaten -insgesamt-")
        [Text (py "Mitte"); Text (py "unknown"); Text (py "abc")]
      = Text (py "unknown")
   /\ parse_number digits_only (py "unknown") = None
   /\ ~ total_is_zero
          {| columns := [District; Total_Crime; Total_Crime];
             rows := [[Text (py "Mitte"); Num zero; Text (py "abc")]] |} 0)
  /\ (load_crime_data_for_map (reads repeated_unknown_sheet) digits_only where_refused
        keep_wide CRIME_FILE_NAME
      = Return empty_frame
      /\ retained (map normalize_header (columns repeated_unknown_sheet))
           (py "Bezeichnung (Bezirk)") (rows repeated_unknown_sheet) !! 0%nat
         = Some [Text (py "Mitte"); Text (py "unknown"); Text (py "unknown")]
      /\ field (map normalize_header (columns repeated_unknown_sheet))
           (py "Straftaten insgesamt")
           [Text (py "Mitte"); Text (py "unknown"); Text (py "unknown")]
         = Text (py "unknown")
      /\ ~ total_is_zero empty_frame 0).
Proof.
  split.
  - split; [by vm_compute|]. split; [by vm_compute|]. split; [by vm_compute|].
    split; [by vm_compute|].
    intros (out_row & Hrow & _ & Hzero). injection Hrow as <-.
    by specialize (Hzero 2%nat eq_refl).
  - split; [by vm_compute|]. split; [by vm_compute|]. split; [by vm_compute|].
    by intros (out_row & Hrow & _).
Qed.

(** C5, as stated, fails: a negative total stays negative, and two rows of
    one district both stay.  Beside that, on a sheet with a column already
    named [Total_Crime] the output shows that column's text under
    [Total_Crime], and on a sheet with a column already named [District]
    two output rows show that column's one value under [District]. *)
Lemma negative_total_and_repeated_district :
  (load_crime_data_for_map (fun _ => Return negative_sheet) digits_only where_refused
     keep_wide CRIME_FILE_NAME
   = Return {| columns := [District; Total_Crime];
               rows := [ [Text (py "Mitte"); Num (Finite (-5))];
                         [Text (py "Mitte"); Num (Finite 7)] ] |}
   /\ ~ totals_nonnegative
          {| columns := [District; Total_Crime];
             rows := [ [Text (py "Mitte"); Num (Finite (-5))];
                       [Text (py "Mitte"); Num (Finite 7)] ] |}
   /\ ~ one_row_per_district
          {| columns := [District; Total_Crime];
             rows := [ [Text (py "Mitte"); Num (Finite (-5))];
                       [Text (py "Mitte"); Num (Finite 7)] ] |})
  /\ (load_crime_data_for_map (reads foreign_total_sheet) digits_only where_refused
        keep_wide CRIME_FILE_NAME
      = Return {| columns := [District; Total_Crime; Total_Crime];
                  rows := [[Text (py "Mitte"); Num zero; Text (py "abc")]] |}
      /\ ~ totals_nonnegative
             {| columns := [District; Total_Crime; Total_Crime];
                rows := [[Text (py "Mitte"); Num zero; Text (py "abc")]] |})
  /\ (load_crime_data_for_map (reads foreign_district_sheet) digits_only where_refused
        keep_wide CRIME_FILE_NAME
      = Return {| columns := [District; District; Total_Crime];
                  rows := [ [Text (py "Mitte"); Text (py "Zone A"); Num (Finite 1)];
                            [Text (py "Pankow"); Text (py "Zone A"); Num (Finite 2)] ] |}
      /\ NoDup (listed_districts (map normalize_header (columns foreign_district_sheet))
                  (py "Bezeichnung (Bezirk)") (rows foreign_district_sheet))
      /\ ~ one_row_per_district
             {| columns := [District; District; Total_Crime];
                rows := [ [Text (py "Mitte"); Text (py "Zone A"); Num (Finite 1)];
                          [Text (py "Pankow"); Text (py "Zone A"); Num (Finite 2)] ] |}).
Proof.
  split; [|split].
  - split; [by vm_compute|]. split.
    + intros H.
      destruct (H [Text (py "Mitte"); Num (Finite (-5))] 1%nat) as (x & Hx & Hnn).
      * apply list_elem_of_here.
      * done.
      * injection Hx as <-. by vm_compute in Hnn.
    + intros H.
      by specialize (H 0%nat 1%nat _ _ 0%nat eq_refl eq_refl eq_refl eq_refl).
  - split; [by vm_compute|].
    intros H.
    destruct (H [Text (py "Mitte"); Num zero; Text (py "abc")] 2%nat) as (x & Hx & _).
    + apply list_elem_of_here.
    + done.
    + done.
  - split; [by vm_compute|]. split.
    + apply (bool_decide_unpack _). by vm_compute.
    + intros H.
      by specialize (H 0%nat 1%nat _ _ 1%nat eq_refl eq_refl eq_refl eq_refl).
Qed.

(** ** The gateways *)

Lemma try_except_io_never_raises {A : Type} (body : IO A) (fallback : A) :
  never_raises (try_except_io body (fun _ => mret fallback)).
Proof.
  intros log. unfold try_except_io.
  destruct (body log) as [[v|e] log']; by eauto.
Qed.

Lemma try_except_io_falls_back {A : Type} (body : IO A) (fallback : A) :
  falls_back_to fallback body (try_except_io body (fun _ => mret fallback)).
Proof. intros log e log' H. unfold try_except_io. by rewrite H. Qed.

Lemma bind_raises {A B : Type} (m : IO A) (k : A -> IO B) log e log' :
  m log = (Raise e, log') -> (m ≫= k) log = (Raise e, log').
Proof. intros H. unfold mbind, IO_bind. by rewrite H. Qed.

Section GatewayFacts.

Variable respond : request -> result value.
Variable format_other : value -> list N.
Variable parse_float : list N -> option number.
Variable GEMINI_API_KEY : list N.

Lemma call_raises req e log :
  respond req = Raise e -> call respond req log = (Raise e, log ++ [req]).
Proof. intros H. unfold call. by rewrite H. Qed.

Lemma exchange_rate_fallback :
  never_raises (get_exchange_rate respond)
  /\ falls_back_to (VNum (Finite 1450)) (exchange_rate_body respond)
       (get_exchange_rate respond)
  /\ survives_failure respond exchange_rate_request (VNum (Finite 1450))
       (get_exchange_rate respond).
Proof.
  split; [apply try_except_io_never_raises|].
  split; [apply try_except_io_falls_back|].
  intros e log H. apply try_except_io_falls_back with (e := e).
  by apply bind_raises, call_raises.
Qed.

Lemma weather_fallback_returned :
  never_raises (get_weather respond)
  /\ falls_back_to weather_fallback (weather_body respond) (get_weather respond)
  /\ survives_failure respond weather_request weather_fallback (get_weather respond).
Proof.
  split; [apply try_except_io_never_raises|].
  split; [apply try_except_io_falls_back|].
  intros e log H. apply try_except_io_falls_back with (e := e).
  by apply bind_raises, call_raises.
Qed.

Lemma osm_places_fallback category lat lng radius_m :
  never_raises (get_osm_places respond format_other category lat lng radius_m)
  /\ forall tag,
       osm_tag category = Some tag ->
       falls_back_to [] (osm_places_body respond format_other tag lat lng radius_m)
         (get_osm_places respond format_other category lat lng radius_m)
       /\ survives_failure respond
            (overpass_request format_other tag lat lng radius_m) []
            (get_osm_places respond format_other category lat lng radius_m).
Proof.
  unfold get_osm_places. destruct (osm_tag category) as [tag|].
  - split; [apply try_except_io_never_raises|].
    intros tag' [= <-]. split; [apply try_except_io_falls_back|].
    intros e log H. apply try_except_io_falls_back with (e := e).
    by apply bind_raises, call_raises.
  - split; [|done]. intros log. by eexists _, _.
Qed.

Lemma search_location_fallback query :
  never_raises (search_location respond parse_float query)
  /\ falls_back_to none_triple (search_location_body respond parse_float query)
       (search_location respond parse_float query)
  /\ survives_failure respond (nominatim_request query) none_triple
       (search_location respond parse_float query).
Proof.
  assert (Hfb : falls_back_to none_triple (search_location_body respond parse_float query)
                  (search_location respond parse_float query)).
  { intros log e log' H. unfold search_location, mbind, IO_bind, try_except_io.
    by rewrite H. }
  split; [|split; [exact Hfb|]].
  - intros log. unfold search_location, mbind, IO_bind, try_except_io.
    destruct (search_location_body respond parse_float query log) as [[v|e] log'];
      by eexists _, _.
  - intros e log H. apply Hfb with (e := e).
    by apply bind_raises, call_raises.
Qed.

Lemma gemini_fallback prompt :
  never_raises (get_gemini_response respond GEMINI_API_KEY prompt)
  /\ (str_truthy GEMINI_API_KEY = true ->
      falls_back_to assistant_fallback (call respond (gemini_request prompt))
        (get_gemini_response respond GEMINI_API_KEY prompt)
      /\ survives_failure respond (gemini_request prompt) assistant_fallback
           (get_gemini_response respond GEMINI_API_KEY prompt))
  /\ (str_truthy GEMINI_API_KEY = false ->
      forall log,
        get_gemini_response respond GEMINI_API_KEY prompt log
        = (Return missing_key_message, log)).
Proof.
  unfold get_gemini_response. destruct (str_truthy GEMINI_API_KEY); simpl.
  - split; [apply try_except_io_never_raises|]. split; [|done].
    intros _. split; [apply try_except_io_falls_back|].
    intros e log H. apply try_except_io_falls_back with (e := e).
    by apply call_raises.
  - split; [intros log; by eexists _, _|]. split; [done|]. by intros _ log.
Qed.

(** C6.  None of the five gateways lets an exception out, and each returns
    its fallback whenever its protected block raises, be it the request
    itself or the reading of the answer: 1450.0 for the exchange rate, the
    pair temperature 15.0 and weathercode 0 for the weather, the empty
    list for the place search, the triple of [None] for the geocoder and
    the fixed text [AI 오류] for the assistant (which, without an API key,
    issues no request and returns another fixed text). *)
Theorem gateways_fall_back :
  (never_raises (get_exchange_rate respond)
   /\ falls_back_to (VNum (Finite 1450)) (exchange_rate_body respond)
        (get_exchange_rate respond)
   /\ survives_failure respond exchange_rate_request (VNum (Finite 1450))
        (get_exchange_rate respond))
  /\ (never_raises (get_weather respond)
      /\ falls_back_to
           (VDict [(py "temperature", VNum (Finite 15));
                   (py "weathercode", VNum (Finite 0))])
           (weather_body respond) (get_weather respond)
      /\ survives_failure respond weather_request
           (VDict [(py "temperature", VNum (Finite 15));
                   (py "weathercode", VNum (Finite 0))])
           (get_weather respond))
  /\ (forall category lat lng radius_m,
        never_raises (get_osm_places respond format_other category lat lng radius_m)
        /\ forall tag,
             osm_tag category = Some tag ->
             falls_back_to []
               (osm_places_body respond format_other tag lat lng radius_m)
               (get_osm_places respond format_other category lat lng radius_m)
             /\ survives_failure respond
                  (overpass_request format_other tag lat lng radius_m) []
                  (get_osm_places respond format_other category lat lng radius_m))
  /\ (forall query,
        never_raises (search_location respond parse_float query)
        /\ falls_back_to (VNone, VNone, VNone)
             (search_location_body respond parse_float query)
             (search_location respond parse_float query)
        /\ survives_failure respond (nominatim_request query) (VNone, VNone, VNone)
             (search_location respond parse_float query))
  /\ (forall prompt,
        never_raises (get_gemini_response respond GEMINI_API_KEY prompt)
        /\ (str_truthy GEMINI_API_KEY = true ->
            falls_back_to (VStr (py "AI 오류")) (call respond (gemini_request prompt))
              (get_gemini_response respond GEMINI_API_KEY prompt)
            /\ survives_failure respond (gemini_request prompt) (VStr (py "AI 오류"))
                 (get_gemini_response respond GEMINI_API_KEY prompt))
        /\ (str_truthy GEMINI_API_KEY = false ->
            forall log,
              get_gemini_response respond GEMINI_API_KEY prompt log
              = (Return (VStr (py "API 키가 필요합니다.")), log))).
Proof.
  split; [apply exchange_rate_fallback|].
  split; [apply weather_fallback_returned|].
  split; [apply osm_places_fallback|].
  split; [apply search_location_fallback | apply gemini_fallback].
Qed.

(** C10.  For a category that is none of [restaurant], [hotel] and
    [tourism], whatever the coordinates and the radius, the place search
    returns the empty list and issues no request: the list of requests is
    as it was. *)
Theorem unknown_category_no_request category lat lng radius_m log :
  category ≠ py "restaurant" ->
  category ≠ py "hotel" ->
  category ≠ py "tourism" ->
  get_osm_places respond format_other category lat lng radius_m log
  = (Return [], log).
Proof.
  intros H1 H2 H3. unfold get_osm_places, osm_tag.
  by rewrite !decide_False.
Qed.

End GatewayFacts.

(** ** The search box *)

Section SearchFacts.

Variable respond : request -> result value.
Variable parse_float : list N -> option number.

Lemma search_location_no_hit query res log :
  respond (nominatim_request query) = Return res ->
  truthy res = false ->
  search_location respond parse_float query log
  = (Return none_triple, log ++ [nominatim_request query]).
Proof.
  intros Hres Hfalsy.
  unfold search_location, search_location_body, mbind, IO_bind, try_except_io, call.
  by rewrite Hres, Hfalsy.
Qed.

Lemma search_handler_no_hit search_query st log log' :
  search_location respond parse_float (search_query ++ py " Berlin") log
  = (Return none_triple, log') ->
  exists log'', search_handler respond parse_float search_query st log
                = (Return st, log'').
Proof.
  intros H. unfold search_handler.
  destruct (str_truthy search_query); [|by exists log].
  unfold mbind, IO_bind. rewrite H. simpl. by exists log'.
Qed.

(** C7, as amended.  For the empty query the search box issues no request
    and leaves the session state as it is.  For every query, blank ones
    included, the geocoder returns the triple of [None] when the lookup
    raises or answers with an empty result; and whenever the geocoder
    returns that triple for the query followed by [ Berlin], the session
    state, map center and search marker included, is left as it is. *)
Theorem empty_query_leaves_state st log :
  search_handler respond parse_float [] st log = (Return st, log)
  /\ (forall query e,
        respond (nominatim_request query) = Raise e ->
        search_location respond parse_float query log
        = (Return (VNone, VNone, VNone), log ++ [nominatim_request query]))
  /\ (forall query res,
        respond (nominatim_request query) = Return res ->
        truthy res = false ->
        search_location respond parse_float query log
        = (Return (VNone, VNone, VNone), log ++ [nominatim_request query]))
  /\ (forall search_query log',
        search_location respond parse_float (search_query ++ py " Berlin") log
        = (Return (VNone, VNone, VNone), log') ->
        exists log'', search_handler respond parse_float search_query st log
                      = (Return st, log'')).
Proof.
  split; [done|]. split; [|split].
  - intros query e H.
    destruct (search_location_fallback respond parse_float query) as (_ & _ & Hs).
    exact (Hs e log H).
  - intros query res. apply search_location_no_hit.
  - intros search_query log'. apply search_handler_no_hit.
Qed.

End SearchFacts.

(** C7, as stated, fails: the query of one blank is not empty, so the search
    box asks the geocoder for that blank followed by [ Berlin]; a geocoder
    that finds Berlin answers with coordinates, and the map center and the
    search marker change. *)
Lemma blank_query_moves_the_map :
  blank (py " ")
  /\ search_location berlin_geocoder sample_float (py " " ++ py " Berlin") []
     = (Return (VNum (Finite (525 # 10)), VNum (Finite (134 # 10)), VStr (py "Berlin")),
        [nominatim_request (py "  Berlin")])
  /\ exists st' log',
       search_handler berlin_geocoder sample_float (py " ") initial_state []
       = (Return st', log')
       /\ map_center st' ≠ map_center initial_state
       /\ search_marker st' ≠ search_marker initial_state.
Proof.
  split; [by vm_compute|]. split; [by vm_compute|].
  eexists _, _. split; [by vm_compute|]. split; by vm_compute.
Qed.

(** ** The recommendation board *)

Lemma submit_well_formed name description st :
  well_formed st -> well_formed (submit_recommendation name description st).
Proof.
  intros [Hnd Hal]. unfold well_formed, submit_recommendation, py_insert. simpl.
  rewrite drop_0.
  assert (Hfresh : fresh (dom (objects st)) ∉ recommendations st).
  { intros Hin. apply Hal, elem_of_dom in Hin. by apply is_fresh in Hin. }
  split.
  - by apply NoDup_cons.
  - intros l [-> | Hl]%elem_of_cons.
    + rewrite lookup_insert_eq. by eexists.
    + rewrite lookup_insert_ne by (intros <-; done). by apply Hal.
Qed.

Lemma reply_well_formed i r_text st :
  well_formed st -> well_formed (reply_handler i r_text st).
Proof.
  intros [Hnd Hal]. unfold reply_handler.
  destruct (recommendations st !! i) as [l|]; [|done].
  split; [done|]. simpl. intros l' Hl'.
  rewrite lookup_alter. destruct (Hal l' Hl') as [r Hr].
  case_decide; subst; rewrite Hr; by eexists.
Qed.

Lemma search_handler_board respond parse_float search_query st log st' log' :
  search_handler respond parse_float search_query st log = (Return st', log') ->
  objects st' = objects st /\ recommendations st' = recommendations st.
Proof.
  unfold search_handler. destruct (str_truthy search_query); [|by intros [= <- _]].
  unfold mbind, IO_bind.
  destruct (search_location respond parse_float _ log) as [[[[lat lng] name]|e] log1];
    [|done].
  destruct (truthy lat); by intros [= <- _].
Qed.

Lemma chat_handler_board respond key prompt st log st' log' :
  chat_handler respond key prompt st log = (Return st', log') ->
  objects st' = objects st /\ recommendations st' = recommendations st.
Proof.
  unfold chat_handler. destruct (str_truthy prompt); [|by intros [= <- _]].
  unfold mbind, IO_bind.
  destruct (get_gemini_response respond key prompt log) as [[resp|e] log1]; [|done].
  by intros [= <- _].
Qed.

(** Every state of a session is well formed. *)
Lemma reachable_well_formed st : reachable st -> well_formed st.
Proof.
  induction 1 as [| name description st _ IH | i r_text st _ IH
                  | respond parse_float search_query st log _ IH st' log' Hstep
                  | respond key prompt st log _ IH st' log' Hstep].
  - split; [apply NoDup_nil_2 | by intros l ?%elem_of_nil].
  - by apply submit_well_formed.
  - by apply reply_well_formed.
  - apply search_handler_board in Hstep as [Ho Hr].
    unfold well_formed. by rewrite Ho, Hr.
  - apply chat_handler_board in Hstep as [Ho Hr].
    unfold well_formed. by rewrite Ho, Hr.
Qed.

Lemma submit_shown name description st :
  well_formed st ->
  shown (submit_recommendation name description st)
  = Some {| place := name; desc := description; replies := [] |} :: shown st.
Proof.
  intros [_ Hal]. unfold shown, submit_recommendation, py_insert. simpl.
  rewrite drop_0, lookup_insert_eq. f_equal.
  apply map_ext_in. intros l Hl%list_elem_of_In.
  rewrite lookup_insert_ne; [done|].
  intros <-. apply Hal, elem_of_dom in Hl. by apply is_fresh in Hl.
Qed.

(** C8.  In every state of the board, submitting the place Alexanderplatz
    with the reason Great views puts the recommendation with these two
    texts and no reply first on the page, and everything shown before
    follows it unchanged. *)
Theorem submit_goes_first st :
  well_formed st ->
  shown (submit_recommendation (py "Alexanderplatz") (py "Great views") st)
  = Some {| place := py "Alexanderplatz"; desc := py "Great views"; replies := [] |}
    :: shown st.
Proof. apply submit_shown. Qed.

Lemma reply_shown i r_text st r :
  well_formed st ->
  shown st !! i = Some (Some r) ->
  shown (reply_handler i r_text st)
  = <[i := Some (append_reply r_text r)]> (shown st)
  /\ recommendations (reply_handler i r_text st) = recommendations st.
Proof.
  intros [Hnd _] Hi. unfold shown in Hi. rewrite list_lookup_fmap in Hi.
  destruct (recommendations st !! i) as [l|] eqn:Hl; [|done].
  simpl in Hi. injection Hi as Hr.
  unfold reply_handler. rewrite Hl. split; [|done].
  unfold shown. simpl. apply list_eq. intros j.
  destruct (decide (j = i)) as [->|Hji].
  - rewrite list_lookup_insert_eq
      by (rewrite length_map; by apply lookup_lt_Some in Hl).
    rewrite list_lookup_fmap, Hl. simpl.
    by rewrite lookup_alter_eq, Hr.
  - rewrite list_lookup_insert_ne by done.
    rewrite !list_lookup_fmap.
    destruct (recommendations st !! j) as [l'|] eqn:Hl'; [|done]. simpl.
    rewrite lookup_alter_ne; [done|].
    intros <-. apply Hji. by apply (NoDup_lookup _ _ _ l Hnd).
Qed.

(** C9.  On a recommendation shown without replies, the reply Agreed! makes
    its replies the one-element list of that text and keeps its place and
    its reason; every other recommendation on the page is shown as before,
    and the list of recommendations is the same. *)
Theorem reply_appended st i r :
  well_formed st ->
  shown st !! i = Some (Some r) ->
  replies r = [] ->
  shown (reply_handler i (py "Agreed!") st)
  = <[i := Some {| place := place r; desc := desc r; replies := [py "Agreed!"] |}]>
      (shown st)
  /\ recommendations (reply_handler i (py "Agreed!") st) = recommendations st.
Proof.
  intros Hwf Hi Hempty.
  destruct (reply_shown i (py "Agreed!") st r Hwf Hi) as [-> ->].
  split; [|done]. unfold append_reply. by rewrite Hempty.
Qed.

(** ** Instances *)

Lemma loader_never_raises_witness :
  reads unrelated_sheet CRIME_FILE_NAME = Return unrelated_sheet
  /\ (forall c, c ∈ columns unrelated_sheet -> contains (py "Bezeichnung") c = false)
  /\ load_crime_data_for_map (reads unrelated_sheet) digits_only where_refused keep_wide
       CRIME_FILE_NAME = Return empty_frame.
Proof.
  assert (H : forall c, c ∈ columns unrelated_sheet ->
                        contains (py "Bezeichnung") c = false).
  { apply (proj1 (Forall_forall _ _)). apply (bool_decide_unpack _). by vm_compute. }
  split; [reflexivity|]. split; [exact H|].
  destruct (loader_never_raises (reads unrelated_sheet) digits_only where_refused keep_wide
              CRIME_FILE_NAME) as (_ & _ & Hmissing & _).
  apply (Hmissing unrelated_sheet); [reflexivity | by left].
Defined.

Lemma scenario_table_witness :
  reads scenario_sheet CRIME_FILE_NAME = Return scenario_sheet
  /\ load_crime_data_for_map (reads scenario_sheet) digits_only where_refused keep_wide
       CRIME_FILE_NAME
     = Return {| columns := [District; Total_Crime];
                 rows := [[Text (py "Mitte"); Num (Finite 12345)]] |}.
Proof.
  split; [reflexivity|].
  apply (scenario_table (reads scenario_sheet) digits_only where_refused keep_wide
           CRIME_FILE_NAME).
  left. reflexivity.
Defined.

Lemma districts_listed_without_clash_witness :
  reads scenario_sheet CRIME_FILE_NAME = Return scenario_sheet
  /\ load_crime_data_for_map (reads scenario_sheet) digits_only where_refused keep_wide
       CRIME_FILE_NAME
     = Return {| columns := [District; Total_Crime];
                 rows := [[Text (py "Mitte"); Num (Finite 12345)]] |}
  /\ (District ∉ map normalize_header (columns scenario_sheet))
  /\ districts_listed {| columns := [District; Total_Crime];
                         rows := [[Text (py "Mitte"); Num (Finite 12345)]] |}.
Proof.
  assert (H1 : load_crime_data_for_map (reads scenario_sheet) digits_only where_refused
                 keep_wide CRIME_FILE_NAME
               = Return {| columns := [District; Total_Crime];
                           rows := [[Text (py "Mitte"); Num (Finite 12345)]] |})
    by (by vm_compute).
  assert (H2 : District ∉ map normalize_header (columns scenario_sheet)).
  { apply (bool_decide_unpack _). by vm_compute. }
  split; [reflexivity|]. split; [exact H1|]. split; [exact H2|].
  destruct (districts_listed_without_clash (reads scenario_sheet) digits_only keep_wide
              CRIME_FILE_NAME scenario_sheet
              {| columns := [District; Total_Crime];
                 rows := [[Text (py "Mitte"); Num (Finite 12345)]] |}
              eq_refl H1) as [_ H].
  exact (H H2).
Defined.

Lemma non_numeric_total_is_zero_witness :
  parse_number digits_only (py "unknown") = None
  /\ (Total_Crime ∉ map normalize_header (columns unknown_total_sheet))
  /\ load_crime_data_for_map (reads unknown_total_sheet) digits_only where_refused
       keep_wide CRIME_FILE_NAME
     = Return {| columns := [District; Total_Crime];
                 rows := [ [Text (py "Mitte"); Num (Finite 12345)];
                           [Text (py "Pankow"); Num zero] ] |}
  /\ total_is_zero
       {| columns := [District; Total_Crime];
          rows := [ [Text (py "Mitte"); Num (Finite 12345)];
                    [Text (py "Pankow"); Num zero] ] |} 1.
Proof.
  assert (H1 : parse_number digits_only (py "unknown") = None) by (by vm_compute).
  assert (H2 : Total_Crime ∉ map normalize_header (columns unknown_total_sheet)).
  { apply (bool_decide_unpack _). by vm_compute. }
  assert (H3 : load_crime_data_for_map (reads unknown_total_sheet) digits_only
                 where_refused keep_wide CRIME_FILE_NAME
               = Return {| columns := [District; Total_Crime];
                           rows := [ [Text (py "Mitte"); Num (Finite 12345)];
                                     [Text (py "Pankow"); Num zero] ] |})
    by (by vm_compute).
  split; [exact H1|]. split; [exact H2|]. split; [exact H3|].
  refine (proj2 (non_numeric_total_is_zero (reads unknown_total_sheet) digits_only
                   keep_wide CRIME_FILE_NAME unknown_total_sheet _
                   (py "Bezeichnung (Bezirk)") (py "Straftaten -insgesamt-") 1%nat
                   [Text (py "Pankow"); Text (py "unknown")] (py "unknown")
                   eq_refl _ H3 _ _ _ H1) H2).
  - by vm_compute.
  - done.
  - by vm_compute.
  - by vm_compute.
Defined.

Lemma totals_are_numbers_witness :
  (Total_Crime ∉ map normalize_header (columns unknown_total_sheet))
  /\ (District ∉ map normalize_header (columns unknown_total_sheet))
  /\ NoDup (listed_districts (map normalize_header (columns unknown_total_sheet))
              (py "Bezeichnung (Bezirk)") (rows unknown_total_sheet))
  /\ totals_nonnegative
       {| columns := [District; Total_Crime];
          rows := [ [Text (py "Mitte"); Num (Finite 12345)];
                    [Text (py "Pankow"); Num zero] ] |}
  /\ one_row_per_district
       {| columns := [District; Total_Crime];
          rows := [ [Text (py "Mitte"); Num (Finite 12345)];
                    [Text (py "Pankow"); Num zero] ] |}.
Proof.
  assert (H1 : Total_Crime ∉ map normalize_header (columns unknown_total_sheet)).
  { apply (bool_decide_unpack _). by vm_compute. }
  assert (H2 : District ∉ map normalize_header (columns unknown_total_sheet)).
  { apply (bool_decide_unpack _). by vm_compute. }
  assert (H3 : NoDup (listed_districts
                        (map normalize_header (columns unknown_total_sheet))
                        (py "Bezeichnung (Bezirk)") (rows unknown_total_sheet))).
  { apply (bool_decide_unpack _). by vm_compute. }
  assert (H4 : load_crime_data_for_map (reads unknown_total_sheet) digits_only
                 where_refused keep_wide CRIME_FILE_NAME
               = Return {| columns := [District; Total_Crime];
                           rows := [ [Text (py "Mitte"); Num (Finite 12345)];
                                     [Text (py "Pankow"); Num zero] ] |})
    by (by vm_compute).
  split; [exact H1|]. split; [exact H2|]. split; [exact H3|].
  destruct (totals_are_numbers (reads unknown_total_sheet) digits_only keep_wide
              CRIME_FILE_NAME unknown_total_sheet
              {| columns := [District; Total_Crime];
                 rows := [ [Text (py "Mitte"); Num (Finite 12345)];
                           [Text (py "Pankow"); Num zero] ] |}
              eq_refl H4) as [HT HD].
  destruct (HT H1) as (_ & _ & Hnn).
  split.
  - apply (Hnn (py "Bezeichnung (Bezirk)") (py "Straftaten -insgesamt-"));
      [by vm_compute|].
    intros row Hin _. apply list_elem_of_In in Hin. simpl in Hin.
    destruct Hin as [<- | [<- | [<- | []]]]; by vm_compute.
  - apply (HD H2 (py "Bezeichnung (Bezirk)")); [by vm_compute | exact H3].
Defined.

Lemma gateways_fall_back_witness :
  offline exchange_rate_request = Raise OtherError
  /\ get_exchange_rate offline [] = (Return (VNum (Finite 1450)), [exchange_rate_request])
  /\ search_location offline sample_float (py "Kreuzberg Berlin") []
     = (Return (VNone, VNone, VNone), [nominatim_request (py "Kreuzberg Berlin")]).
Proof.
  destruct (gateways_fall_back offline sample_format sample_float (py "key"))
    as ((_ & _ & Hrate) & _ & _ & Hsearch & _).
  destruct (Hsearch (py "Kreuzberg Berlin")) as (_ & _ & Hgeo).
  split; [reflexivity|]. split.
  - exact (Hrate OtherError [] eq_refl).
  - exact (Hgeo OtherError [] eq_refl).
Defined.

Lemma empty_query_leaves_state_witness :
  offline (nominatim_request (py "Kreuzberg Berlin")) = Raise OtherError
  /\ search_handler offline sample_float [] initial_state [] = (Return initial_state, [])
  /\ exists log,
       search_handler offline sample_float (py "Kreuzberg") initial_state []
       = (Return initial_state, log).
Proof.
  destruct (empty_query_leaves_state offline sample_float initial_state [])
    as (Hempty & Hraise & _ & Hkeep).
  split; [reflexivity|]. split; [exact Hempty|].
  apply (Hkeep (py "Kreuzberg") [nominatim_request (py "Kreuzberg Berlin")]).
  exact (Hraise (py "Kreuzberg Berlin") OtherError eq_refl).
Defined.

Lemma submit_goes_first_witness :
  well_formed first_recommendation
  /\ shown (submit_recommendation (py "Alexanderplatz") (py "Great views")
              first_recommendation)
     = Some {| place := py "Alexanderplatz"; desc := py "Great views"; replies := [] |}
       :: shown first_recommendation.
Proof.
  assert (H : well_formed first_recommendation).
  { apply reachable_well_formed, reachable_submit, reachable_initial. }
  split; [exact H|]. exact (submit_goes_first first_recommendation H).
Defined.

Lemma reply_appended_witness :
  shown first_recommendation !! 0%nat
  = Some (Some {| place := py "Alexanderplatz"; desc := py "Great views";
                  replies := [] |})
  /\ shown (reply_handler 0 (py "Agreed!") first_recommendation)
     = [Some {| place := py "Alexanderplatz"; desc := py "Great views";
                replies := [py "Agreed!"] |}].
Proof.
  assert (H : shown first_recommendation !! 0%nat
              = Some (Some {| place := py "Alexanderplatz"; desc := py "Great views";
                              replies := [] |})) by (by vm_compute).
  split; [exact H|].
  destruct (reply_appended first_recommendation 0
              {| place := py "Alexanderplatz"; desc := py "Great views"; replies := [] |})
    as [Hshown _].
  - apply reachable_well_formed, reachable_submit, reachable_initial.
  - exact H.
  - reflexivity.
  - rewrite Hshown. by vm_compute.
Defined.

Lemma unknown_category_no_request_witness :
  py "cafe" ≠ py "restaurant"
  /\ get_osm_places offline sample_format (py "cafe")
       (VNum (Finite (5252 # 100))) (VNum (Finite (13405 # 1000))) (VNum (Finite 3000)) []
     = (Return [], []).
Proof.
  assert (H1 : py "cafe" ≠ py "restaurant") by (by vm_compute).
  split; [exact H1|].
  apply (unknown_category_no_request offline sample_format (py "cafe")); by vm_compute.
Defined.

(** * Further properties of the code *)

(** ** Cleaning a header *)

Lemma lstrip_head (s : list N) a t : lstrip s = a :: t -> isspace a = false.
Proof.
  induction s as [|c s IH]; simpl; [done|].
  destruct (isspace c) eqn:E; [exact IH|]. by intros [= <- _].
Qed.

Lemma lstrip_fixed (s : list N) :
  (forall a t, s = a :: t -> isspace a = false) -> lstrip s = s.
Proof.
  destruct s as [|a t]; [done|]. intros H. simpl. by rewrite (H a t).
Qed.

Lemma rstrip_prefix (s : list N) : exists post, s = rstrip s ++ post.
Proof.
  unfold rstrip. destruct (lstrip_suffix (rev s)) as [pre H].
  exists (rev pre). by rewrite <- rev_app_distr, <- H, rev_involutive.
Qed.

Lemma rstrip_last (s t : list N) a : rstrip s = t ++ [a] -> isspace a = false.
Proof.
  unfold rstrip. intros H. apply (f_equal (@rev N)) in H.
  rewrite rev_involutive, rev_app_distr in H. simpl in H.
  by apply lstrip_head in H.
Qed.

Lemma rstrip_fixed (s : list N) :
  (forall t a, s = t ++ [a] -> isspace a = false) -> rstrip s = s.
Proof.
  intros H. unfold rstrip. rewrite lstrip_fixed; [apply rev_involutive|].
  intros a t E. apply (H (rev t) a).
  by rewrite <- (rev_involutive s), E.
Qed.

Lemma strip_head (s : list N) a t : strip s = a :: t -> isspace a = false.
Proof.
  unfold strip. intros H.
  destruct (rstrip_prefix (lstrip s)) as [post Hpost].
  rewrite H in Hpost. by apply lstrip_head in Hpost.
Qed.

Lemma strip_last (s t : list N) a : strip s = t ++ [a] -> isspace a = false.
Proof. apply rstrip_last. Qed.

Lemma strip_fixed (s : list N) :
  (forall a t, s = a :: t -> isspace a = false) ->
  (forall t a, s = t ++ [a] -> isspace a = false) ->
  strip s = s.
Proof.
  intros Hh Hl. unfold strip. rewrite (lstrip_fixed s Hh). by apply rstrip_fixed.
Qed.

Lemma replace_char_absent (old new : N) (s : list N) :
  old ∉ s -> replace_char old new s = s.
Proof.
  induction s as [|c s IH]; [done|].
  intros [Hc Hs]%not_elem_of_cons. simpl.
  rewrite IH by done. destruct (N.eqb_spec c old); [congruence | done].
Qed.

Lemma replace_char_removes (old new : N) (s : list N) :
  new ≠ old -> old ∉ replace_char old new s.
Proof.
  intros Hne. induction s as [|c s IH]; simpl; [by intros ?%elem_of_nil|].
  intros [E | Hin]%elem_of_cons; [|done].
  destruct (N.eqb_spec c old); congruence.
Qed.

(** X1.  A cleaned header holds no line break, neither starts nor ends with
    a whitespace character, and cleaning it again changes nothing. *)
Theorem normalize_header_clean (c : list N) :
  (newline ∉ normalize_header c)
  /\ (forall a t, normalize_header c = a :: t -> isspace a = false)
  /\ (forall t a, normalize_header c = t ++ [a] -> isspace a = false)
  /\ normalize_header (normalize_header c) = normalize_header c.
Proof.
  assert (Hnl : newline ∉ normalize_header c).
  { unfold normalize_header.
    destruct (strip_infix (replace_char newline space c)) as (pre & post & H).
    intros Hin. apply (replace_char_removes newline space c); [done|].
    rewrite H. apply elem_of_app. right. apply elem_of_app. by left. }
  split; [exact Hnl|]. split; [apply strip_head|]. split; [apply strip_last|].
  unfold normalize_header at 1. rewrite replace_char_absent by exact Hnl.
  apply strip_fixed; [apply strip_head | apply strip_last].
Qed.

(** ** The column search and the cleaning *)

Lemma lstrip_keeps (pre k post : list N) a k' :
  k = a :: k' -> isspace a = false ->
  exists pre', lstrip (pre ++ k ++ post) = pre' ++ k ++ post.
Proof.
  intros -> Ha. induction pre as [|p pre [pre' IH]]; simpl.
  - rewrite Ha. by exists [].
  - destruct (isspace p).
    + by exists pre'.
    + by exists (p :: pre).
Qed.

Lemma rstrip_keeps (pre k post : list N) :
  k ≠ [] -> (forall x, x ∈ k -> isspace x = false) ->
  exists post', rstrip (pre ++ k ++ post) = pre ++ k ++ post'.
Proof.
  intros Hne Hk. unfold rstrip. rewrite !rev_app_distr, <- app_assoc.
  destruct (rev k) as [|a k'] eqn:E.
  { apply (f_equal (@rev N)) in E. rewrite rev_involutive in E. by subst k. }
  assert (Ha : isspace a = false).
  { apply Hk. rewrite <- (rev_involutive k), E. simpl.
    apply elem_of_app. right. apply list_elem_of_here. }
  destruct (lstrip_keeps (rev post) (a :: k') (rev pre) a k' eq_refl Ha) as [post'' H].
  rewrite H. exists (rev post'').
  rewrite !rev_app_distr, rev_involutive, <- E, rev_involutive.
  by rewrite <- app_assoc.
Qed.

(** A fragment without whitespace that occurs in a header still occurs in
    the cleaned header. *)
Lemma contains_after_normalize (needle c : list N) :
  needle ≠ [] -> (forall x, x ∈ needle -> isspace x = false) ->
  contains needle c = true -> contains needle (normalize_header c) = true.
Proof.
  intros Hne Hk. rewrite !contains_infix. intros (pre & post & ->).
  unfold normalize_header, replace_char. rewrite !map_app.
  assert (Hfix : map (fun c => if c =? newline then space else c) needle = needle).
  { apply (replace_char_absent newline space). intros Hin.
    apply Hk in Hin. by vm_compute in Hin. }
  rewrite Hfix. destruct needle as [|a k'] eqn:E; [done|].
  assert (Ha : isspace a = false) by (apply Hk, list_elem_of_here).
  unfold strip.
  destruct (lstrip_keeps (map (fun c => if c =? newline then space else c) pre)
              (a :: k') (map (fun c => if c =? newline then space else c) post)
              a k' eq_refl Ha) as [pre' ->].
  destruct (rstrip_keeps pre' (a :: k')
              (map (fun c => if c =? newline then space else c) post)
              ltac:(done) Hk) as [post' ->].
  by exists pre', post'.
Qed.

Lemma fragment_without_whitespace (s : string) :
  forallb (fun x => negb (isspace x)) (py s) = true ->
  forall x, x ∈ py s -> isspace x = false.
Proof.
  intros H x Hx. rewrite forallb_forall in H.
  apply list_elem_of_In, H in Hx. by destruct (isspace x).
Qed.

Lemma is_district_header_normalize c :
  is_district_header (normalize_header c) = is_district_header c.
Proof.
  apply eq_true_iff_eq. split; [apply normalized_district_header|].
  apply contains_after_normalize; [by vm_compute|].
  by apply fragment_without_whitespace.
Qed.

Lemma is_total_header_normalize c :
  is_total_header (normalize_header c) = is_total_header c.
Proof.
  apply eq_true_iff_eq. split; [apply normalized_total_header|].
  unfold is_total_header. rewrite !andb_true_iff. intros [H1 H2].
  split; (apply contains_after_normalize;
          [by vm_compute | by apply fragment_without_whitespace | done]).
Qed.

Lemma last_match_map (P : list N -> bool) (f : list N -> list N) cols init :
  (forall c, P (f c) = P c) ->
  last_match P (map f cols) (f <$> init) = f <$> last_match P cols init.
Proof.
  intros HP. revert init. induction cols as [|c cols IH]; intros init; [done|].
  unfold last_match in *. simpl. rewrite HP.
  destruct (P c); [apply (IH (Some c)) | apply IH].
Qed.

(** X2.  Cleaning changes no header's match with the fragments: the search
    on the cleaned headers finds the cleaned forms of the columns the search
    on the raw headers finds. *)
Theorem find_columns_cleaned (cols : list (list N)) :
  (forall c, contains (py "Bezeichnung") (normalize_header c)
             = contains (py "Bezeichnung") c)
  /\ (forall c, contains (py "Straftaten") (normalize_header c)
                && contains (py "insgesamt") (normalize_header c)
                = contains (py "Straftaten") c && contains (py "insgesamt") c)
  /\ find_columns (map normalize_header cols)
     = (normalize_header <$> fst (find_columns cols),
        normalize_header <$> snd (find_columns cols)).
Proof.
  split; [apply is_district_header_normalize|].
  split; [apply is_total_header_normalize|].
  rewrite !find_columns_last_match. simpl. f_equal.
  - apply (last_match_map is_district_header normalize_header cols None).
    apply is_district_header_normalize.
  - apply (last_match_map is_total_header normalize_header cols None).
    apply is_total_header_normalize.
Qed.

Lemma last_match_app P pre post init :
  last_match P (pre ++ post) init = last_match P post (last_match P pre init).
Proof. unfold last_match. apply fold_left_app. Qed.

(** X3.  When several headers match, the last one is taken: a header that
    contains [Bezeichnung] and is followed by no other such header is the
    district column, whatever stands before it; likewise for the header
    that contains both [Straftaten] and [insgesamt]. *)
Theorem find_columns_last (pre post : list (list N)) (c : list N) :
  (contains (py "Bezeichnung") c = true ->
   (forall c', c' ∈ post -> contains (py "Bezeichnung") c' = false) ->
   fst (find_columns (pre ++ c :: post)) = Some c)
  /\ (contains (py "Straftaten") c && contains (py "insgesamt") c = true ->
      (forall c', c' ∈ post ->
         contains (py "Straftaten") c' && contains (py "insgesamt") c' = false) ->
      snd (find_columns (pre ++ c :: post)) = Some c).
Proof.
  rewrite find_columns_last_match. simpl. split; intros Hc Hpost.
  - change (is_district_header c = true) in Hc.
    rewrite last_match_app.
    change (last_match is_district_header (c :: post)
              (last_match is_district_header pre None))
      with (last_match is_district_header post
              (if is_district_header c then Some c
               else last_match is_district_header pre None)).
    rewrite Hc. by apply last_match_none.
  - change (is_total_header c = true) in Hc.
    rewrite last_match_app.
    change (last_match is_total_header (c :: post)
              (last_match is_total_header pre None))
      with (last_match is_total_header post
              (if is_total_header c then Some c
               else last_match is_total_header pre None)).
    rewrite Hc. by apply last_match_none.
Qed.

(** ** Edges of the loader *)

Section LoaderEdges.

Variable read_excel : list N -> result DataFrame.
Variable parse_text : list N -> option number.
Variable frame_where : DataFrame -> DataFrame -> result DataFrame.
Variable wide_magnitude : list cell -> Q -> number.

Local Abbreviation load :=
  (load_crime_data_for_map read_excel parse_text frame_where wide_magnitude).

(** With both columns found, the loader is the protected run of lines 74
    to 91. *)
Lemma load_found file_name sheet district_col total_col :
  read_excel file_name = Return sheet ->
  find_columns (map normalize_header (columns sheet))
  = (Some district_col, Some total_col) ->
  load file_name
  = try_except
      (normalize_table parse_text frame_where wide_magnitude
         {| columns := map normalize_header (columns sheet); rows := rows sheet |}
         district_col total_col)
      (fun _ => Return empty_frame).
Proof.
  intros Hread Hfind. unfold load_crime_data_for_map, load_body.
  rewrite Hread. simpl. rewrite Hfind. simpl.
  rewrite find_columns_last_match in Hfind. injection Hfind as Hd Ht.
  apply last_match_some in Hd as [[_ Hd] | ?]; [|done].
  apply last_match_some in Ht as [[_ Ht] | ?]; [|done].
  by rewrite (district_header_truthy _ Hd), (total_header_truthy _ Ht).
Qed.

(** X4.  When two or more columns carry the label of the total column (their
    headers clean to the same text), the conversion to numbers is refused
    and the loader returns the empty frame, although both columns were
    found. *)
Theorem repeated_total_label_unusable file_name sheet district_col total_col :
  read_excel file_name = Return sheet ->
  find_columns (map normalize_header (columns sheet))
  = (Some district_col, Some total_col) ->
  length (positions district_col (map normalize_header (columns sheet))) = 1%nat ->
  (2 <= length (positions total_col (map normalize_header (columns sheet))))%nat ->
  load file_name = Return empty_frame.
Proof.
  intros Hread Hfind (d & Hpd & _)%positions_single Hmany.
  rewrite (load_found _ _ _ _ Hread Hfind).
  rewrite (normalize_table_single _ _ _ _ _ _ _ d) by done.
  destruct (positions total_col _) as [|t [|t' ts]]; simpl in Hmany; try lia.
  done.
Qed.

(** X5.  When one column is both the district and the total column and no
    header is [District], the renaming leaves no [District] column, the
    final selection fails and the loader returns the empty frame. *)
Theorem single_column_for_both_unusable file_name sheet col :
  read_excel file_name = Return sheet ->
  find_columns (map normalize_header (columns sheet)) = (Some col, Some col) ->
  length (positions col (map normalize_header (columns sheet))) = 1%nat ->
  District ∉ map normalize_header (columns sheet) ->
  load file_name = Return empty_frame.
Proof.
  intros Hread Hfind (d & Hpd & _)%positions_single HD.
  rewrite (load_found _ _ _ _ Hread Hfind).
  rewrite (normalize_table_single _ _ _ _ _ _ _ d), Hpd by done.
  unfold getitem_list. simpl.
  destruct (positions District (renamed (map normalize_header (columns sheet)) col col))
    as [|p ps] eqn:E; [done|].
  assert (Hp : p ∈ positions District
                 (renamed (map normalize_header (columns sheet)) col col))
    by (rewrite E; apply list_elem_of_here).
  apply elem_of_positions, renamed_District in Hp as [_ Hne]; done.
Qed.



End LoaderEdges.

(** ** The requests of the gateways *)

Ltac split_result :=
  repeat (simpl;
          match goal with
          | |- context [match ?m with Return _ => _ | Raise _ => _ end] =>
              lazymatch m with
              | context [match _ with Return _ => _ | Raise _ => _ end] => fail
              | context [if _ then _ else _] => fail
              | _ => destruct m eqn:?
              end
          | |- context [if ?b then _ else _] =>
              lazymatch b with
              | context [match _ with Return _ => _ | Raise _ => _ end] => fail
              | _ => destruct b eqn:?
              end
          end);
  simpl.

Section GatewayRequests.

Variable respond : request -> result value.
Variable format_other : value -> list N.
Variable parse_float : list N -> option number.
Variable GEMINI_API_KEY : list N.

(** X8.  A call of the geocoder, and a call of the assistant with an API
    key, issues exactly one request, whatever the answer and whatever goes
    wrong afterwards: there is no retry. *)
Theorem gateways_request_once log :
  (forall query,
     snd (search_location respond parse_float query log)
     = log ++ [nominatim_request query])
  /\ (forall prompt,
        str_truthy GEMINI_API_KEY = true ->
        snd (get_gemini_response respond GEMINI_API_KEY prompt log)
        = log ++ [gemini_request prompt]).
Proof.
  split.
  - intros query.
    unfold search_location, search_location_body, try_except_io, mbind, IO_bind,
      mret, IO_ret, call, lift. by split_result.
  - intros prompt Hkey. unfold get_gemini_response. rewrite Hkey. simpl.
    unfold try_except_io, mret, IO_ret, call. by split_result.
Qed.

End GatewayRequests.

(** ** The place search *)

Section PlaceSearch.

Variable respond : request -> result value.
Variable format_other : value -> list N.

(** One turn of the loop raises, skips the element or adds its record. *)
Lemma collect_places_step element rest acc :
  (exists e, collect_places format_other (element :: rest) acc = Raise e)
  \/ collect_places format_other (element :: rest) acc
     = collect_places format_other rest acc
  \/ exists name lat lon,
       collect_places format_other (element :: rest) acc
       = collect_places format_other rest
           (acc ++ [place_record format_other name lat lon]).
Proof.
  simpl. unfold mbind, result_bind.
  destruct (py_in (py "tags") element) as [[|]|e]; [| |left; by eexists].
  - destruct (subscript element (Key (py "tags"))) as [tags|e]; [|left; by eexists].
    destruct (py_in (py "name") tags) as [[|]|e]; [| |left; by eexists].
    + destruct (subscript tags (Key (py "name"))) as [name|e]; [|left; by eexists].
      destruct (subscript element (Key (py "lat"))) as [lat|e]; [|left; by eexists].
      destruct (subscript element (Key (py "lon"))) as [lon|e]; [|left; by eexists].
      right. right. by exists name, lat, lon.
    + right. by left.
  - right. by left.
Qed.

Lemma collect_places_records elements acc res :
  collect_places format_other elements acc = Return res ->
  Forall (is_place format_other) acc -> Forall (is_place format_other) res.
Proof.
  revert acc. induction elements as [|element rest IH]; intros acc.
  - simpl. by intros [= <-].
  - destruct (collect_places_step element rest acc)
      as [[e ->] | [-> | (name & lat & lon & ->)]]; [done | apply IH |].
    intros Hres Hacc. apply (IH _ Hres).
    apply Forall_app. split; [done|]. apply Forall_singleton. by exists name, lat, lon.
Qed.

Lemma google_link_no_space name : space ∉ google_link format_other name.
Proof.
  unfold google_link. intros [Hin | Hin]%elem_of_app.
  - revert Hin. apply (bool_decide_unpack _). by vm_compute.
  - by apply (replace_char_removes space 43) in Hin.
Qed.

(** X9.  Every place the search returns is a record with the four fields
    [name], [lat], [lng] and [link], so the four lookups of the marker loops
    succeed on it, and its link holds no blank. *)
Theorem places_are_records category lat lng radius_m log places :
  fst (get_osm_places respond format_other category lat lng radius_m log)
  = Return places ->
  forall p, p ∈ places ->
    exists name p_lat p_lng link,
      subscript p (Key (py "name")) = Return name
      /\ subscript p (Key (py "lat")) = Return p_lat
      /\ subscript p (Key (py "lng")) = Return p_lng
      /\ subscript p (Key (py "link")) = Return (VStr link)
      /\ (space ∉ link).
Proof.
  intros Hres.
  assert (Hall : Forall (is_place format_other) places).
  { revert Hres. unfold get_osm_places.
    destruct (osm_tag category) as [tag|]; [|by intros [= <-]].
    unfold osm_places_body, try_except_io, mbind, IO_bind, mret, IO_ret, call, lift.
    destruct (respond _) as [data|e]; simpl; [|by intros [= <-]].
    destruct (subscript data _) as [elements|e]; simpl; [|by intros [= <-]].
    destruct (iterate elements) as [items|e]; simpl; [|by intros [= <-]].
    destruct (collect_places format_other items []) as [res|e] eqn:E; simpl;
      [|by intros [= <-]].
    intros [= <-]. by apply (collect_places_records items [] res E). }
  intros p Hp. rewrite Forall_forall in Hall.
  destruct (Hall p Hp) as (name & p_lat & p_lng & ->).
  exists name, p_lat, p_lng, (google_link format_other name).
  repeat split; try by vm_compute. apply google_link_no_space.
Qed.

Lemma collect_places_uncharted elements acc :
  existsb uncharted elements = true ->
  exists e, collect_places format_other elements acc = Raise e.
Proof.
  revert acc. induction elements as [|element rest IH]; intros acc; [done|].
  simpl existsb. destruct (uncharted element) eqn:Hu; simpl.
  - intros _. unfold uncharted in Hu.
    destruct element as [| | | |?|d]; try done.
    destruct (assoc (py "tags") d) as [[| | | |?|t]|] eqn:Htags; try done.
    destruct (assoc (py "name") t) as [name|] eqn:Hname; [|done].
    unfold mbind, result_bind, py_in, subscript. rewrite Htags, Hname. simpl.
    destruct (assoc (py "lat") d) as [lat|]; simpl; [|by eexists].
    destruct (assoc (py "lon") d) as [lon|]; simpl; [done | by eexists].
  - intros Hrest.
    destruct (collect_places_step element rest acc)
      as [[e He] | [He | (name & lat & lon & He)]]; simpl in He; rewrite He.
    + by exists e.
    + by apply IH.
    + by apply IH.
Qed.

(** X10.  The place search is all or nothing: when one named element of the
    answer lacks its latitude or its longitude, the search returns the empty
    list, the records of the elements before it included. *)
Theorem uncharted_element_empties category tag lat lng radius_m log data elements items :
  osm_tag category = Some tag ->
  respond (overpass_request format_other tag lat lng radius_m) = Return data ->
  subscript data (Key (py "elements")) = Return elements ->
  iterate elements = Return items ->
  existsb uncharted items = true ->
  get_osm_places respond format_other category lat lng radius_m log
  = (Return [], log ++ [overpass_request format_other tag lat lng radius_m]).
Proof.
  intros Htag Hdata Helements Hitems Hbad.
  destruct (collect_places_uncharted items [] Hbad) as [e He].
  unfold get_osm_places. rewrite Htag.
  unfold osm_places_body, try_except_io, mbind, IO_bind, mret, IO_ret, call, lift.
  by rewrite Hdata, Helements, Hitems, He.
Qed.

Lemma collect_places_expected elements acc :
  forallb osm_element elements = true ->
  collect_places format_other elements acc
  = Return (acc ++ flat_map (expected_places format_other) elements).
Proof.
  revert acc. induction elements as [|element rest IH]; intros acc.
  - intros _. simpl. by rewrite app_nil_r.
  - simpl forallb. intros [Hel Hrest]%andb_true_iff.
    unfold osm_element in Hel. simpl flat_map.
    destruct element as [| | | |?|d]; try done.
    simpl. unfold mbind, result_bind, py_in, subscript.
    destruct (assoc (py "tags") d) as [[| | | |?|t]|] eqn:Htags; try done; simpl.
    + destruct (assoc (py "name") t) as [name|] eqn:Hname; simpl.
      * apply andb_true_iff in Hel as [Hlat Hlon].
        apply bool_decide_eq_true in Hlat as [p_lat Hlat].
        apply bool_decide_eq_true in Hlon as [p_lon Hlon].
        rewrite Hlat, Hlon. simpl. rewrite (IH _ Hrest). by rewrite <- app_assoc.
      * by apply IH.
    + by apply IH.
Qed.

(** X11.  On an answer made of elements as the service sends them, the place
    search returns one record for each named element, in the order of the
    answer, and skips the elements without tags or without a name. *)
Theorem places_of_named_elements category tag lat lng radius_m log data elements :
  osm_tag category = Some tag ->
  respond (overpass_request format_other tag lat lng radius_m) = Return data ->
  subscript data (Key (py "elements")) = Return (VList elements) ->
  forallb osm_element elements = true ->
  get_osm_places respond format_other category lat lng radius_m log
  = (Return (flat_map (expected_places format_other) elements),
     log ++ [overpass_request format_other tag lat lng radius_m]).
Proof.
  intros Htag Hdata Helements Hwf.
  unfold get_osm_places. rewrite Htag.
  unfold osm_places_body, try_except_io, mbind, IO_bind, mret, IO_ret, call, lift.
  rewrite Hdata, Helements. simpl.
  by rewrite (collect_places_expected elements [] Hwf).
Qed.

End PlaceSearch.

(** ** The geocoder and the search box, on a hit *)

Section Geocoding.

Variable respond : request -> result value.
Variable parse_float : list N -> option number.

(** X12.  The geocoder returns either the triple of [None] or a triple whose
    latitude and longitude are numbers: no other shape reaches the
    caller. *)
Theorem search_location_shape query log :
  exists t,
    fst (search_location respond parse_float query log) = Return t
    /\ (t = (VNone, VNone, VNone) \/ exists x y name, t = (VNum x, VNum y, name)).
Proof.
  unfold search_location, search_location_body, try_except_io, mbind, IO_bind,
    mret, IO_ret, call, lift.
  split_result; eexists; (split; [reflexivity|]); (by left) || (right; by eexists _, _, _).
Qed.

Lemma float_of_py_float v x :
  float_of parse_float v = Some x -> py_float parse_float v = Return x.
Proof.
  destruct v as [| |[q| |]| | |]; simpl; try done.
  - by intros [= ->].
  - by destruct (within_float q); intros [= ->].
  - by intros ->.
Qed.

(** The geocoder on an answer whose first hit has the three fields. *)
Lemma search_location_hit query log d rest lat lon name x y :
  respond (nominatim_request query) = Return (VList (VDict d :: rest)) ->
  assoc (py "lat") d = Some lat -> py_float parse_float lat = Return x ->
  assoc (py "lon") d = Some lon -> py_float parse_float lon = Return y ->
  assoc (py "display_name") d = Some name ->
  search_location respond parse_float query log
  = (Return (VNum x, VNum y, name), log ++ [nominatim_request query]).
Proof.
  intros Hres Hlat Hx Hlon Hy Hname.
  unfold search_location, search_location_body, try_except_io, mbind, IO_bind,
    mret, IO_ret, call, lift.
  rewrite Hres. simpl. rewrite Hlat, Hlon, Hname. simpl.
  by rewrite Hx, Hy.
Qed.

(** X13.  For a query that is not empty, when the first hit of the answer to
    that query followed by [ Berlin] has a display name, a latitude and a
    longitude, the two being texts that [float] converts (as the geocoder
    sends them), booleans or numbers of magnitude at most 2^53, the search
    box sets the map center to the two coordinates and the search marker to
    the three values, and leaves the rest of the session as it is; the
    further hits are not looked at.  A hit whose latitude is zero counts as
    no hit: the session is left as it is. *)
Theorem search_hit_moves_map search_query st log d rest lat lon name x y :
  str_truthy search_query = true ->
  respond (nominatim_request (search_query ++ py " Berlin"))
  = Return (VList (VDict d :: rest)) ->
  assoc (py "lat") d = Some lat -> float_of parse_float lat = Some x ->
  assoc (py "lon") d = Some lon -> float_of parse_float lon = Some y ->
  assoc (py "display_name") d = Some name ->
  search_handler respond parse_float search_query st log
  = (Return
       (if number_truthy x then
          {| objects := objects st;
             recommendations := recommendations st;
             messages := messages st;
             map_center := VList [VNum x; VNum y];
             search_marker :=
               VDict [(py "lat", VNum x); (py "lng", VNum y); (py "name", name)] |}
        else st),
     log ++ [nominatim_request (search_query ++ py " Berlin")]).
Proof.
  intros Hq Hres Hlat Hx%float_of_py_float Hlon Hy%float_of_py_float Hname.
  unfold search_handler. rewrite Hq. unfold mbind at 1, IO_bind at 1.
  rewrite (search_location_hit _ log d rest lat lon name x y) by done.
  simpl. by destruct (number_truthy x).
Qed.

End Geocoding.

(** ** Invariants of the session *)

Lemma search_handler_outcome respond parse_float search_query st log st' log' :
  search_handler respond parse_float search_query st log = (Return st', log') ->
  st' = st
  \/ exists x y name,
       number_truthy x = true
       /\ st' = {| objects := objects st;
                   recommendations := recommendations st;
                   messages := messages st;
                   map_center := VList [VNum x; VNum y];
                   search_marker :=
                     VDict [(py "lat", VNum x); (py "lng", VNum y);
                            (py "name", name)] |}.
Proof.
  unfold search_handler. destruct (str_truthy search_query); [|intros [= <- _]; by left].
  unfold mbind, IO_bind.
  destruct (search_location_shape respond parse_float
              (search_query ++ py " Berlin") log) as (t & Ht & Hshape).
  destruct (search_location respond parse_float _ log) as [[t'|e] log1]; [|done].
  simpl in Ht. injection Ht as ->.
  destruct Hshape as [-> | (x & y & name & ->)]; simpl.
  - intros [= <- _]. by left.
  - destruct (number_truthy x) eqn:Hx; intros [= <- _]; [right | by left].
    by exists x, y, name.
Qed.

Lemma chat_handler_outcome respond key prompt st log st' log' :
  chat_handler respond key prompt st log = (Return st', log') ->
  st' = st
  \/ exists resp,
       st' = {| objects := objects st;
                recommendations := recommendations st;
                messages := messages st ++ turn (prompt, resp);
                map_center := map_center st;
                search_marker := search_marker st |}.
Proof.
  unfold chat_handler. destruct (str_truthy prompt); [|intros [= <- _]; by left].
  unfold mbind, IO_bind.
  destruct (get_gemini_response respond key prompt log) as [[resp|e] log1]; [|done].
  intros [= <- _]. right. by exists resp.
Qed.

(** X14.  In every state of a session the map center and the search marker
    agree: the marker is [None] and the center is the initial one, or the
    marker holds a latitude that is not zero, a longitude, both numbers,
    and a name, and the center is that pair of coordinates. *)
Theorem reachable_located st : reachable st -> located st.
Proof.
  induction 1 as [| name description st _ IH | i r_text st _ IH
                  | respond parse_float search_query st log _ IH st' log' Hstep
                  | respond key prompt st log _ IH st' log' Hstep].
  - by left.
  - exact IH.
  - unfold reply_handler. by destruct (recommendations st !! i).
  - apply search_handler_outcome in Hstep as [-> | (x & y & name & Hx & ->)];
      [exact IH|]. right. by exists x, y, name.
  - by apply chat_handler_outcome in Hstep as [-> | (resp & ->)].
Qed.

(** X15.  In every state of a session the chat history is made of whole
    turns, each a message of the user followed by a message of the
    assistant. *)
Theorem reachable_dialogue st : reachable st -> dialogue (messages st).
Proof.
  induction 1 as [| name description st _ IH | i r_text st _ IH
                  | respond parse_float search_query st log _ IH st' log' Hstep
                  | respond key prompt st log _ IH st' log' Hstep].
  - by exists [].
  - exact IH.
  - unfold reply_handler. by destruct (recommendations st !! i).
  - by apply search_handler_outcome in Hstep as [-> | (x & y & name & Hx & ->)].
  - apply chat_handler_outcome in Hstep as [-> | (resp & ->)]; [exact IH|].
    destruct IH as [turns IH]. exists (turns ++ [(prompt, resp)]). simpl.
    rewrite IH, flat_map_app. simpl. by rewrite ?app_nil_r.
Qed.

Lemma board_extends_refl st : board_extends st st.
Proof.
  split; [by exists []|]. intros l r Hr. exists r.
  repeat split; try done. exists []. by rewrite app_nil_r.
Qed.

Lemma board_extends_trans st1 st2 st3 :
  board_extends st1 st2 -> board_extends st2 st3 -> board_extends st1 st3.
Proof.
  intros [[n1 H1] K1] [[n2 H2] K2]. split.
  - exists (n2 ++ n1). by rewrite H2, H1, app_assoc.
  - intros l r Hr.
    destruct (K1 l r Hr) as (r' & Hr' & Hp & Hd & later & Hl).
    destruct (K2 l r' Hr') as (r'' & Hr'' & Hp' & Hd' & later' & Hl').
    exists r''. repeat split; try congruence.
    exists (later ++ later'). by rewrite Hl', Hl, app_assoc.
Qed.

Lemma step_extends_board st st' : step st st' -> board_extends st st'.
Proof.
  destruct 1 as [name description st | i r_text st
                 | respond parse_float search_query st log st' log' Hstep
                 | respond key prompt st log st' log' Hstep].
  - split.
    + exists [fresh (dom (objects st))]. unfold submit_recommendation, py_insert.
      simpl. by rewrite drop_0.
    + intros l r Hr. exists r. simpl. rewrite lookup_insert_ne.
      * repeat split; try done. exists []. by rewrite app_nil_r.
      * intros <-. apply (is_fresh (dom (objects st))).
        apply elem_of_dom. by exists r.
  - unfold reply_handler.
    destruct (recommendations st !! i) as [l0|]; [|apply board_extends_refl].
    split; [by exists []|]. simpl. intros l r Hr. rewrite lookup_alter.
    case_decide as E.
    + subst l0. rewrite Hr. simpl. eexists. repeat split; try done.
      by exists [r_text].
    + exists r. repeat split; try done. exists []. by rewrite app_nil_r.
  - apply search_handler_outcome in Hstep as [-> | (x & y & name & _ & ->)];
      apply board_extends_refl || (split; [by exists [] | ]).
    intros l r Hr. exists r. repeat split; try done. exists []. by rewrite app_nil_r.
  - apply chat_handler_outcome in Hstep as [-> | (resp & ->)];
      apply board_extends_refl || (split; [by exists [] | ]).
    intros l r Hr. exists r. repeat split; try done. exists []. by rewrite app_nil_r.
Qed.

(** X16.  The board only grows: after any number of interactions the
    recommendations listed before are still listed in their order, behind
    the newer ones, and each of them keeps its place and its reason, and its
    replies as the beginning of its later replies.  Nothing is edited or
    deleted. *)
Theorem interactions_extend_board st st' : rtc step st st' -> board_extends st st'.
Proof.
  induction 1 as [st | st1 st2 st3 Hstep _ IH].
  - apply board_extends_refl.
  - apply (board_extends_trans _ st2); [by apply step_extends_board | exact IH].
Qed.

Lemma reachable_step st st' : reachable st -> step st st' -> reachable st'.
Proof.
  intros Hst. destruct 1; [by constructor | by constructor | |].
  - by eapply reachable_search.
  - by eapply reachable_chat.
Qed.

(** X17.  A reply goes last: on any recommendation shown, with replies or
    without, the handler puts the text behind the replies it has, keeps its
    place and its reason, and leaves the other recommendations as they
    are. *)
Theorem reply_goes_last st i r_text r :
  well_formed st ->
  shown st !! i = Some (Some r) ->
  shown (reply_handler i r_text st)
  = <[i := Some {| place := place r; desc := desc r;
                   replies := replies r ++ [r_text] |}]> (shown st).
Proof. intros Hwf Hi. by destruct (reply_shown i r_text st r Hwf Hi) as [-> _]. Qed.

(** X18.  A recommendation submitted and then replied to through the first
    button of the page is shown first with that one reply, and everything
    shown before follows unchanged. *)
Theorem reply_after_submit name description r_text st :
  well_formed st ->
  shown (reply_handler 0 r_text (submit_recommendation name description st))
  = Some {| place := name; desc := description; replies := [r_text] |} :: shown st.
Proof.
  intros Hwf.
  pose proof (submit_shown name description st Hwf) as Hsub.
  destruct (reply_shown 0 r_text (submit_recommendation name description st)
              {| place := name; desc := description; replies := [] |}) as [-> _].
  - by apply submit_well_formed.
  - by rewrite Hsub.
  - by rewrite Hsub.
Qed.

(** X19.  A question to the assistant never fails and adds one whole turn to
    the chat history, the question and then what the assistant gateway
    returned for it; the rest of the session is left as it is.  An empty
    prompt does nothing. *)
Theorem chat_adds_turn respond key prompt st log :
  (str_truthy prompt = true ->
   exists resp log',
     get_gemini_response respond key prompt log = (Return resp, log')
     /\ chat_handler respond key prompt st log
        = (Return {| objects := objects st;
                     recommendations := recommendations st;
                     messages := messages st
                       ++ [ {| role := py "user"; content := VStr prompt |};
                            {| role := py "assistant"; content := resp |} ];
                     map_center := map_center st;
                     search_marker := search_marker st |}, log'))
  /\ (str_truthy prompt = false ->
      chat_handler respond key prompt st log = (Return st, log)).
Proof.
  unfold chat_handler. split; intros ->; [|done].
  destruct (gemini_fallback respond key prompt) as (Hnever & _).
  destruct (Hnever log) as (resp & log' & Hresp).
  exists resp, log'. split; [done|]. unfold mbind, IO_bind. by rewrite Hresp.
Qed.

(** ** Instances of the further properties *)

Lemma find_columns_last_witness :
  contains (py "Bezeichnung") (py "Bezeichnung (Bezirk)") = true
  /\ fst (find_columns ([py "Bezeichnung alt"] ++ py "Bezeichnung (Bezirk)" :: [py "Anzahl"]))
     = Some (py "Bezeichnung (Bezirk)").
Proof.
  assert (H : contains (py "Bezeichnung") (py "Bezeichnung (Bezirk)") = true)
    by (by vm_compute).
  split; [exact H|].
  apply (find_columns_last [py "Bezeichnung alt"] [py "Anzahl"]
           (py "Bezeichnung (Bezirk)")); [exact H|].
  apply (proj1 (Forall_forall _ _)). apply (bool_decide_unpack _). by vm_compute.
Defined.

Lemma repeated_total_label_unusable_witness :
  (2 <= length (positions (py "Straftaten insgesamt")
                  (map normalize_header (columns repeated_total_sheet))))%nat
  /\ load_crime_data_for_map (reads repeated_total_sheet) digits_only where_refused keep_wide
       CRIME_FILE_NAME = Return empty_frame.
Proof.
  assert (H : (2 <= length (positions (py "Straftaten insgesamt")
                              (map normalize_header (columns repeated_total_sheet))))%nat)
    by (vm_compute; lia).
  split; [exact H|].
  apply (repeated_total_label_unusable (reads repeated_total_sheet) digits_only
           where_refused keep_wide CRIME_FILE_NAME repeated_total_sheet
           (py "Bezeichnung (Bezirk)") (py "Straftaten insgesamt"));
    [reflexivity | by vm_compute | by vm_compute | exact H].
Defined.

Lemma single_column_for_both_unusable_witness :
  find_columns (map normalize_header (columns merged_column_sheet))
  = (Some (py "Bezeichnung der Straftaten insgesamt"),
     Some (py "Bezeichnung der Straftaten insgesamt"))
  /\ load_crime_data_for_map (reads merged_column_sheet) digits_only where_refused keep_wide
       CRIME_FILE_NAME = Return empty_frame.
Proof.
  split; [by vm_compute|].
  apply (single_column_for_both_unusable (reads merged_column_sheet) digits_only
           where_refused keep_wide CRIME_FILE_NAME merged_column_sheet
           (py "Bezeichnung der Straftaten insgesamt"));
    [reflexivity | by vm_compute | by vm_compute |].
  apply (bool_decide_unpack _). by vm_compute.
Defined.




Lemma places_are_records_witness :
  fst (get_osm_places sample_overpass sample_format (py "tourism")
         (VNum (Finite 52)) (VNum (Finite 13)) (VNum (Finite 3000)) [])
  = Return (flat_map (expected_places sample_format) sample_elements)
  /\ exists name p_lat p_lng link,
       subscript (place_record sample_format (VStr (py "Altes Museum"))
                    (VNum (Finite (525 # 10))) (VNum (Finite (134 # 10))))
         (Key (py "name")) = Return name
       /\ subscript (place_record sample_format (VStr (py "Altes Museum"))
                       (VNum (Finite (525 # 10))) (VNum (Finite (134 # 10))))
            (Key (py "lat")) = Return p_lat
       /\ subscript (place_record sample_format (VStr (py "Altes Museum"))
                       (VNum (Finite (525 # 10))) (VNum (Finite (134 # 10))))
            (Key (py "lng")) = Return p_lng
       /\ subscript (place_record sample_format (VStr (py "Altes Museum"))
                       (VNum (Finite (525 # 10))) (VNum (Finite (134 # 10))))
            (Key (py "link")) = Return (VStr link)
       /\ (space ∉ link).
Proof.
  assert (H : fst (get_osm_places sample_overpass sample_format (py "tourism")
                     (VNum (Finite 52)) (VNum (Finite 13)) (VNum (Finite 3000)) [])
              = Return (flat_map (expected_places sample_format) sample_elements))
    by (by vm_compute).
  split; [exact H|].
  apply (places_are_records sample_overpass sample_format (py "tourism")
           (VNum (Finite 52)) (VNum (Finite 13)) (VNum (Finite 3000)) []
           (flat_map (expected_places sample_format) sample_elements) H).
  apply list_elem_of_here.
Defined.

Lemma uncharted_element_empties_witness :
  osm_tag (py "tourism")
  = Some (py "[" ++ quoted (py "tourism") ++ py "~"
          ++ quoted (py "attraction|museum|artwork|viewpoint") ++ py "]")
  /\ get_osm_places broken_overpass sample_format (py "tourism")
       (VNum (Finite 52)) (VNum (Finite 13)) (VNum (Finite 3000)) []
     = (Return [],
        [overpass_request sample_format
           (py "[" ++ quoted (py "tourism") ++ py "~"
            ++ quoted (py "attraction|museum|artwork|viewpoint") ++ py "]")
           (VNum (Finite 52)) (VNum (Finite 13)) (VNum (Finite 3000))]).
Proof.
  assert (H : osm_tag (py "tourism")
              = Some (py "[" ++ quoted (py "tourism") ++ py "~"
                      ++ quoted (py "attraction|museum|artwork|viewpoint") ++ py "]"))
    by (by vm_compute).
  split; [exact H|].
  apply (uncharted_element_empties broken_overpass sample_format (py "tourism")
           (py "[" ++ quoted (py "tourism") ++ py "~"
            ++ quoted (py "attraction|museum|artwork|viewpoint") ++ py "]")
           (VNum (Finite 52)) (VNum (Finite 13)) (VNum (Finite 3000)) []
           (VDict [(py "elements",
              VList [ VDict [(py "lat", VNum (Finite 52)); (py "lon", VNum (Finite 13));
                             (py "tags", VDict [(py "name", VStr (py "Altes Museum"))])];
                      VDict [(py "lat", VNum (Finite 53));
                             (py "tags", VDict [(py "name", VStr (py "Neues Museum"))])] ])])
           (VList [ VDict [(py "lat", VNum (Finite 52)); (py "lon", VNum (Finite 13));
                           (py "tags", VDict [(py "name", VStr (py "Altes Museum"))])];
                    VDict [(py "lat", VNum (Finite 53));
                           (py "tags", VDict [(py "name", VStr (py "Neues Museum"))])] ])
           [ VDict [(py "lat", VNum (Finite 52)); (py "lon", VNum (Finite 13));
                    (py "tags", VDict [(py "name", VStr (py "Altes Museum"))])];
             VDict [(py "lat", VNum (Finite 53));
                    (py "tags", VDict [(py "name", VStr (py "Neues Museum"))])] ]);
    [exact H | reflexivity | by vm_compute | reflexivity | by vm_compute].
Defined.

Lemma places_of_named_elements_witness :
  forallb osm_element sample_elements = true
  /\ get_osm_places sample_overpass sample_format (py "tourism")
       (VNum (Finite 52)) (VNum (Finite 13)) (VNum (Finite 3000)) []
     = (Return [ place_record sample_format (VStr (py "Altes Museum"))
                   (VNum (Finite (525 # 10))) (VNum (Finite (134 # 10)));
                 place_record sample_format (VStr (py "Neues Museum"))
                   (VNum (Finite 53)) (VNum (Finite 14)) ],
        [overpass_request sample_format
           (py "[" ++ quoted (py "tourism") ++ py "~"
            ++ quoted (py "attraction|museum|artwork|viewpoint") ++ py "]")
           (VNum (Finite 52)) (VNum (Finite 13)) (VNum (Finite 3000))]).
Proof.
  assert (H : forallb osm_element sample_elements = true) by (by vm_compute).
  split; [exact H|].
  apply (places_of_named_elements sample_overpass sample_format (py "tourism")
           (py "[" ++ quoted (py "tourism") ++ py "~"
            ++ quoted (py "attraction|museum|artwork|viewpoint") ++ py "]")
           (VNum (Finite 52)) (VNum (Finite 13)) (VNum (Finite 3000)) []
           (VDict [(py "elements", VList sample_elements)]) sample_elements);
    [by vm_compute | reflexivity | by vm_compute | exact H].
Defined.

Lemma search_hit_moves_map_witness :
  str_truthy (py "Mitte") = true
  /\ search_handler berlin_geocoder sample_float (py "Mitte") initial_state []
     = (Return after_search, [nominatim_request (py "Mitte Berlin")])
  /\ search_handler equator_geocoder sample_float (py "Mitte") initial_state []
     = (Return initial_state, [nominatim_request (py "Mitte Berlin")]).
Proof.
  split; [reflexivity|]. split.
  - refine (search_hit_moves_map berlin_geocoder sample_float (py "Mitte")
              initial_state []
              [(py "lat", VStr (py "52.5")); (py "lon", VStr (py "13.4"));
               (py "display_name", VStr (py "Berlin"))] []
              (VStr (py "52.5")) (VStr (py "13.4")) (VStr (py "Berlin"))
              (Finite (525 # 10)) (Finite (134 # 10)) _ _ _ _ _ _ _);
      by vm_compute.
  - refine (search_hit_moves_map equator_geocoder sample_float (py "Mitte")
              initial_state []
              [(py "lat", VNum (Finite 0)); (py "lon", VNum (Finite (134 # 10)));
               (py "display_name", VStr (py "Null Island"))] []
              (VNum (Finite 0)) (VNum (Finite (134 # 10))) (VStr (py "Null Island"))
              (Finite 0) (Finite (134 # 10)) _ _ _ _ _ _ _);
      by vm_compute.
Defined.

Lemma after_search_reachable : reachable after_search.
Proof.
  apply (reachable_search berlin_geocoder sample_float (py "Mitte") initial_state []
           reachable_initial after_search [nominatim_request (py "Mitte Berlin")]).
  by vm_compute.
Defined.

Lemma reachable_located_witness : reachable after_search /\ located after_search.
Proof.
  split; [exact after_search_reachable|].
  exact (reachable_located after_search after_search_reachable).
Defined.

Lemma after_question_reachable : reachable after_question.
Proof.
  apply (reachable_chat offline (py "key") (py "Hallo") initial_state []
           reachable_initial after_question [gemini_request (py "Hallo")]).
  by vm_compute.
Defined.

Lemma reachable_dialogue_witness :
  reachable after_question /\ dialogue (messages after_question).
Proof.
  split; [exact after_question_reachable|].
  exact (reachable_dialogue after_question after_question_reachable).
Defined.

Lemma interactions_extend_board_witness :
  rtc step first_recommendation
    (reply_handler 0 (py "Agreed!")
       (submit_recommendation (py "Mauerpark") (py "Flea market") first_recommendation))
  /\ board_extends first_recommendation
       (reply_handler 0 (py "Agreed!")
          (submit_recommendation (py "Mauerpark") (py "Flea market")
             first_recommendation)).
Proof.
  assert (H : rtc step first_recommendation
                (reply_handler 0 (py "Agreed!")
                   (submit_recommendation (py "Mauerpark") (py "Flea market")
                      first_recommendation))).
  { eapply rtc_l; [apply step_submit|]. eapply rtc_l; [apply step_reply|].
    apply rtc_refl. }
  split; [exact H|]. exact (interactions_extend_board _ _ H).
Defined.

Lemma reply_goes_last_witness :
  shown (reply_handler 0 (py "Agreed!") first_recommendation) !! 0%nat
  = Some (Some {| place := py "Alexanderplatz"; desc := py "Great views";
                  replies := [py "Agreed!"] |})
  /\ shown (reply_handler 0 (py "Me too")
              (reply_handler 0 (py "Agreed!") first_recommendation))
     = [Some {| place := py "Alexanderplatz"; desc := py "Great views";
                replies := [py "Agreed!"; py "Me too"] |}].
Proof.
  assert (H : shown (reply_handler 0 (py "Agreed!") first_recommendation) !! 0%nat
              = Some (Some {| place := py "Alexanderplatz"; desc := py "Great views";
                              replies := [py "Agreed!"] |})) by (by vm_compute).
  split; [exact H|].
  rewrite (reply_goes_last (reply_handler 0 (py "Agreed!") first_recommendation) 0
             (py "Me too")
             {| place := py "Alexanderplatz"; desc := py "Great views";
                replies := [py "Agreed!"] |}).
  - by vm_compute.
  - apply reachable_well_formed, reachable_reply, reachable_submit, reachable_initial.
  - exact H.
Defined.

Lemma reply_after_submit_witness :
  well_formed first_recommendation
  /\ shown (reply_handler 0 (py "Agreed!")
              (submit_recommendation (py "Mauerpark") (py "Flea market")
                 first_recommendation))
     = Some {| place := py "Mauerpark"; desc := py "Flea market";
               replies := [py "Agreed!"] |} :: shown first_recommendation.
Proof.
  assert (H : well_formed first_recommendation).
  { apply reachable_well_formed, reachable_submit, reachable_initial. }
  split; [exact H|].
  exact (reply_after_submit (py "Mauerpark") (py "Flea market") (py "Agreed!")
           first_recommendation H).
Defined.

Lemma chat_adds_turn_witness :
  str_truthy (py "Hallo") = true
  /\ exists resp log',
       get_gemini_response offline (py "key") (py "Hallo") [] = (Return resp, log')
       /\ chat_handler offline (py "key") (py "Hallo") initial_state []
          = (Return {| objects := objects initial_state;
                       recommendations := recommendations initial_state;
                       messages := messages initial_state
                         ++ [ {| role := py "user"; content := VStr (py "Hallo") |};
                              {| role := py "assistant"; content := resp |} ];
                       map_center := map_center initial_state;
                       search_marker := search_marker initial_state |}, log').
Proof.
  split; [reflexivity|].
  destruct (chat_adds_turn offline (py "key") (py "Hallo") initial_state []) as [H _].
  exact (H eq_refl).
Defined.
